(** * Medical image diagnostic assistant: the frontend, embedded and verified

    A shallow embedding of the single-page frontend (the axios client of
    [services/api.js], the auth context, the route guard of [App.js] and the
    Upload, PredictionDetail and UserManagement pages), followed by the
    properties of the specification that concern it.

    The browser is modelled by a [World]: the [localStorage] map, the window
    location, the log of HTTP requests that have left the client, and the
    answers the network is going to give, in order.  *)

From Stdlib Require Import ZArith QArith Lqa Ascii String List Sorting.Sorted Sorting.Permutation.
From stdpp Require Import base option gmap strings pretty list fin_maps.

Set Warnings "-register-all".

Local Open Scope string_scope.
Local Open Scope Z_scope.

(** ** JavaScript values *)

Module JS.

(** Numbers as the modelled code inspects them: integers, or NaN. *)
Inductive Number := NaN | Int (z : Z).

Inductive Value :=
| Undefined
| Null
| Bool (b : bool)
| Num (n : Number)
| Str (s : string)
| Arr (items : list Value)
| Obj (props : list (string * Value)).

(** ToBoolean *)
Definition truthy (v : Value) : bool :=
  match v with
  | Undefined | Null => false
  | Bool b => b
  | Num NaN => false
  | Num (Int z) => negb (z =? 0)
  | Str s => negb (String.eqb s "")
  | Arr _ | Obj _ => true
  end.

(** [a || b] *)
Definition or (a b : Value) : Value := if truthy a then a else b.

Fixpoint lookup_prop (k : string) (props : list (string * Value)) : Value :=
  match props with
  | [] => Undefined
  | (k', v) :: rest => if String.eqb k k' then v else lookup_prop k rest
  end.

(** [v.k] for a [v] that is neither [undefined] nor [null]; on primitives
    the property is looked up on the wrapper and is absent. *)
Definition get (v : Value) (k : string) : Value :=
  match v with
  | Obj props => lookup_prop k props
  | _ => Undefined
  end.

Definition nullish (v : Value) : bool :=
  match v with
  | Undefined | Null => true
  | _ => false
  end.

(** [v === 'literal'] *)
Definition strict_eq_str (v : Value) (s : string) : bool :=
  match v with
  | Str s' => String.eqb s' s
  | _ => false
  end.

(** [String(v)], as template literals and [localStorage.setItem] apply it. *)
Fixpoint to_string (v : Value) : string :=
  match v with
  | Undefined => "undefined"
  | Null => "null"
  | Bool true => "true"
  | Bool false => "false"
  | Num NaN => "NaN"
  | Num (Int z) => pretty z
  | Str s => s
  | Obj _ => "[object Object]"
  | Arr items =>
      let elem x := match x with Undefined | Null => "" | _ => to_string x end in
      (fix join (l : list Value) : string :=
         match l with
         | [] => ""
         | [x] => elem x
         | x :: rest => (elem x ++ "," ++ join rest)%string
         end) items
  end.

(** [{ ...obj, [k]: v }] *)
Fixpoint set_prop (k : string) (v : Value) (props : list (string * Value))
    : list (string * Value) :=
  match props with
  | [] => [(k, v)]
  | (k', v') :: rest =>
      if String.eqb k k' then (k', v) :: rest else (k', v') :: set_prop k v rest
  end.

(** [a === b] on numbers: NaN is equal to nothing. *)
Definition num_strict_eq (a b : Number) : bool :=
  match a, b with
  | Int x, Int y => x =? y
  | _, _ => false
  end.

Definition is_ws (a : ascii) : bool :=
  let n := nat_of_ascii a in
  (Nat.eqb n 32 || (Nat.leb 9 n && Nat.leb n 13))%bool.

Fixpoint trim_left (s : string) : string :=
  match s with
  | String a rest => if is_ws a then trim_left rest else s
  | EmptyString => s
  end.

Definition digit_val (radix : Z) (a : ascii) : option Z :=
  let n := Z.of_nat (nat_of_ascii a) in
  let d := if (48 <=? n) && (n <=? 57) then Some (n - 48)
           else if (97 <=? n) && (n <=? 122) then Some (n - 87)
           else if (65 <=? n) && (n <=? 90) then Some (n - 55)
           else None in
  match d with
  | Some v => if v <? radix then Some v else None
  | None => None
  end.

(** The longest prefix of digits of the radix, accumulated left to right;
    [None] when there is no digit at all. *)
Fixpoint digits (radix : Z) (s : string) (acc : option Z) : option Z :=
  match s with
  | EmptyString => acc
  | String a rest =>
      match digit_val radix a with
      | Some d => digits radix rest (Some (radix * default 0 acc + d))
      | None => acc
      end
  end.

(** [parseInt(s)] without a radix argument: leading white space, an
    optional sign, an optional [0x] prefix, then digits. *)
Definition parseInt (s : string) : Number :=
  let s1 := trim_left s in
  let '(sign, s2) :=
    match s1 with
    | String "-" r => (-1, r)
    | String "+" r => (1, r)
    | _ => (1, s1)
    end in
  let '(radix, s3) :=
    match s2 with
    | String "0" (String "x" r) => (16, r)
    | String "0" (String "X" r) => (16, r)
    | _ => (10, s2)
    end in
  match digits radix s3 None with
  | None => NaN
  | Some z => Int (sign * z)
  end.

(** [Number(o)] for an object literal [o]: its primitive value is the text
    "[object Object]", which is no numeric literal. *)
Definition object_to_number (props : list (string * Value)) : Number := NaN.

(** [v.length]: arrays and strings have one, a plain object has the
    property or not. *)
Definition length_of (v : Value) : Value :=
  match v with
  | Arr items => Num (Int (Z.of_nat (List.length items)))
  | Str s => Num (Int (Z.of_nat (String.length s)))
  | Obj props => lookup_prop "length" props
  | _ => Undefined
  end.

(** [v === n] for a number literal [n]. *)
Definition strict_eq_num (v : Value) (n : Z) : bool :=
  match v with
  | Num m => num_strict_eq m (Int n)
  | _ => false
  end.

(** Objects all of whose values are strings (the text of form controls):
    [{ ...obj, [k]: v }] and [obj.k], which is [None] for [undefined]. *)
Fixpoint set_field (k v : string) (fields : list (string * string))
    : list (string * string) :=
  match fields with
  | [] => [(k, v)]
  | (k', v') :: rest =>
      if String.eqb k k' then (k', v) :: rest else (k', v') :: set_field k v rest
  end.

Fixpoint field (k : string) (fields : list (string * string)) : option string :=
  match fields with
  | [] => None
  | (k', v) :: rest => if String.eqb k k' then Some v else field k rest
  end.

(** A browser [File]. *)
Record File := { name : string; type : string; size : Z }.

End JS.

(** ** The browser and the network *)

Inductive Method := GET | POST | PUT | DELETE.

Inductive Body :=
| NoBody
| JsonBody (v : JS.Value)
| FormBody (fields : list (string * string))
| FileBody (f : JS.File).

(** An axios request configuration. *)
Record Request := {
  method : Method;
  baseURL : string;
  url : string;
  headers : gmap string string;
  req_data : Body
}.

Record Response := {
  status : Z;
  data : JS.Value;
  config : Request
}.

(** An axios error: [response] is absent when the request never got an
    answer. *)
Record Error := {
  response : option Response;
  err_config : Request
}.

(** What the network does with one request. *)
Inductive Transport :=
| Answer (st : Z) (body : JS.Value)
| NoAnswer.

(** What an [await] can throw here: an axios error, or the [TypeError] of a
    property read on [undefined] or [null]. *)
Inductive Thrown :=
| AxiosError (e : Error)
| TypeError.

Inductive Promise (A : Type) :=
| Fulfilled (a : A)
| Rejected (e : Thrown)
| Pending.
Arguments Fulfilled {A} a.
Arguments Rejected {A} e.
Arguments Pending {A}.

(** react-hot-toast calls. *)
Inductive Toast :=
| ToastSuccess (msg : string)
| ToastError (msg : JS.Value)
| ToastLoading (msg : string)
| ToastDismiss.

(** One entry of the react-query cache. *)
Record Query := { qdata : JS.Value; isInvalidated : bool }.

Record World := {
  localStorage : gmap string string;
  location : string;
  common_headers : gmap string string;
  sent : list Request;
  network : list Transport;
  toasts : list Toast;
  queries : gmap (list string) Query
}.

Definition set_localStorage (ls : gmap string string) (w : World) : World :=
  {| localStorage := ls; location := location w; common_headers := common_headers w;
     sent := sent w; network := network w; toasts := toasts w; queries := queries w |}.

Definition set_location (href : string) (w : World) : World :=
  {| localStorage := localStorage w; location := href; common_headers := common_headers w;
     sent := sent w; network := network w; toasts := toasts w; queries := queries w |}.

Definition set_common_headers (h : gmap string string) (w : World) : World :=
  {| localStorage := localStorage w; location := location w; common_headers := h;
     sent := sent w; network := network w; toasts := toasts w; queries := queries w |}.

Definition log_request (r : Request) (w : World) : World :=
  {| localStorage := localStorage w; location := location w; common_headers := common_headers w;
     sent := sent w ++ [r]; network := network w; toasts := toasts w; queries := queries w |}.

Definition set_network (n : list Transport) (w : World) : World :=
  {| localStorage := localStorage w; location := location w; common_headers := common_headers w;
     sent := sent w; network := n; toasts := toasts w; queries := queries w |}.

Definition toast (t : Toast) (w : World) : World :=
  {| localStorage := localStorage w; location := location w; common_headers := common_headers w;
     sent := sent w; network := network w; toasts := toasts w ++ [t]; queries := queries w |}.

Definition set_queries (q : gmap (list string) Query) (w : World) : World :=
  {| localStorage := localStorage w; location := location w; common_headers := common_headers w;
     sent := sent w; network := network w; toasts := toasts w; queries := q |}.

(** [localStorage.getItem(k)] followed by a truthiness test: an absent key
    gives [null], a stored empty string is falsy. *)
Definition getItem_truthy (k : string) (w : World) : option string :=
  match localStorage w !! k with
  | Some v => if String.eqb v "" then None else Some v
  | None => None
  end.

Definition removeItem (k : string) (w : World) : World :=
  set_localStorage (delete k (localStorage w)) w.

Definition setItem (k v : string) (w : World) : World :=
  set_localStorage (<[k := v]> (localStorage w)) w.

(** ** axios

    [settle] is axios' own: a response resolves the promise when
    [validateStatus] accepts its status (the default, which neither
    [axios.create] call overrides, accepts 2xx) and rejects it otherwise. *)

Definition validateStatus (st : Z) : bool := (200 <=? st) && (st <? 300).

Definition settle (cfg : Request) (t : Transport) : Response + Error :=
  match t with
  | Answer st body =>
      let r := {| status := st; data := body; config := cfg |} in
      if validateStatus st then inl r
      else inr {| response := Some r; err_config := cfg |}
  | NoAnswer => inr {| response := None; err_config := cfg |}
  end.

(** The global [axios] instance, which has no interceptors: one request,
    one answer. *)
Definition axios (cfg : Request) (w : World) : World * Promise Response :=
  let w1 := log_request cfg w in
  match network w with
  | [] => (w1, Pending)
  | t :: rest =>
      let w2 := set_network rest w1 in
      match settle cfg t with
      | inl r => (w2, Fulfilled r)
      | inr e => (w2, Rejected (AxiosError e))
      end
  end.

(** ** services/api.js *)

Module Api.

(** [axios.create({ baseURL: '/api', headers: {...} })] *)
Definition instance_headers : gmap string string :=
  {[ "Content-Type" := "application/json" ]}.

Definition mkRequest (m : Method) (u : string) (d : Body)
    (hdrs : gmap string string) : Request :=
  {| method := m; baseURL := "/api"; url := u;
     headers := hdrs ∪ instance_headers; req_data := d |}.

(** The request interceptor. *)
Definition request_interceptor (w : World) (cfg : Request) : Request :=
  match getItem_truthy "token" w with
  | Some token =>
      {| method := method cfg; baseURL := baseURL cfg; url := url cfg;
         headers := <["Authorization" := ("Bearer " ++ token)%string]> (headers cfg);
         req_data := req_data cfg |}
  | None => cfg
  end.

Definition is_redirect (st : Z) : bool := (st =? 307) || (st =? 308).

(** What a response interceptor hands back: a settled promise, or the
    promise of [api(originalRequest)]. *)
Inductive Handled :=
| Settled (w : World) (p : Promise Response)
| Reissue (originalRequest : Request).

(** The response interceptor, success side. *)
Definition on_response (w : World) (resp : Response) : Handled :=
  if is_redirect (status resp) then Reissue (config resp)
  else Settled w (Fulfilled resp).

(** The response interceptor, error side. *)
Definition on_error (w : World) (error : Error) : Handled :=
  match response error with
  | Some r =>
      if status r =? 401 then
        Settled (set_location "/login" (removeItem "token" w)) (Rejected (AxiosError error))
      else if is_redirect (status r) then Reissue (err_config error)
      else Settled w (Rejected (AxiosError error))
  | None => Settled w (Rejected (AxiosError error))
  end.

(** [api(config)]: the request interceptor, the network, the response
    interceptor.  A re-issued request goes through all three again and
    consumes the next answer of the network; when the network has no answer
    left the promise stays pending. *)
Fixpoint dispatch (net : list Transport) (w : World) (cfg : Request)
    : World * Promise Response :=
  let cfg' := request_interceptor w cfg in
  let w1 := log_request cfg' w in
  match net with
  | [] => (set_network [] w1, Pending)
  | t :: rest =>
      let w2 := set_network rest w1 in
      let handled :=
        match settle cfg' t with
        | inl resp => on_response w2 resp
        | inr error => on_error w2 error
        end in
      match handled with
      | Settled w3 p => (w3, p)
      | Reissue originalRequest => dispatch rest w2 originalRequest
      end
  end.

Definition api (cfg : Request) (w : World) : World * Promise Response :=
  dispatch (network w) w cfg.

Definition get (u : string) := api (mkRequest GET u NoBody ∅).
Definition post (u : string) (d : Body) (hdrs : gmap string string) :=
  api (mkRequest POST u d hdrs).
Definition put (u : string) (d : Body) := api (mkRequest PUT u d ∅).
Definition delete (u : string) := api (mkRequest DELETE u NoBody ∅).

(** In the services below an [id] is the text that the template literal
    interpolates, and a [limit] of type [JS.Number] is the value of
    [Number(limit)]; [None] is an omitted argument, for which the default
    parameter applies. *)

Module authService.

Section Login.

(** [JSON.stringify], a built-in. *)
Variable JSON_stringify : JS.Value -> string.

Definition login (username password : string) (w : World)
    : World * Promise Response :=
  let formData := FormBody [("username", username); ("password", password)] in
  match post "/auth/token" formData
             {[ "Content-Type" := "application/x-www-form-urlencoded" ]} w with
  | (w1, Fulfilled resp) =>
      if JS.nullish (data resp) then (w1, Rejected TypeError)
      else
        let access_token := JS.get (data resp) "access_token" in
        if JS.truthy access_token then
          let user := JS.Obj [("id", JS.get (data resp) "user_id");
                              ("username", JS.get (data resp) "username");
                              ("role", JS.get (data resp) "role");
                              ("full_name", JS.get (data resp) "full_name")] in
          (setItem "user" (JSON_stringify user)
             (setItem "token" (JS.to_string access_token) w1), Fulfilled resp)
        else (w1, Fulfilled resp)
  | other => other
  end.

End Login.

Definition getCurrentUser := get "/auth/me".

Inductive Verified :=
| Valid (user : JS.Value)
| Invalid (error : Thrown).

(** [None]: the request never settles. *)
Definition verifyToken (w : World) : World * option Verified :=
  match post "/auth/verify-token" NoBody ∅ w with
  | (w1, Fulfilled resp) => (w1, Some (Valid (data resp)))
  | (w1, Rejected error) =>
      (removeItem "user" (removeItem "token" w1), Some (Invalid error))
  | (w1, Pending) => (w1, None)
  end.

Definition logout (w : World) : World :=
  set_location "/login" (removeItem "user" (removeItem "token" w)).

End authService.

Module predictionService.

Definition getPredictions (limit : option JS.Number) :=
  get ("/predictions/?limit=" ++ JS.to_string (JS.Num (default (JS.Int 5) limit))).
Definition getPrediction (id : string) := get ("/predictions/" ++ id).
Definition createPrediction (d : Body) := post "/predictions/" d ∅.

End predictionService.

Module imageService.

Definition getImages (limit : option JS.Number) :=
  get ("/images/?limit=" ++ JS.to_string (JS.Num (default (JS.Int 1) limit))).
Definition getImage (id : string) := get ("/images/" ++ id).
Definition uploadImage (formData : Body) :=
  post "/images/upload" formData {[ "Content-Type" := "multipart/form-data" ]}.

End imageService.

Module feedbackService.

Definition getFeedback (id : string) := get ("/feedback/" ++ id).
Definition createFeedback (d : Body) := post "/feedback/" d ∅.
Definition updateFeedback (id : string) (d : Body) := put ("/feedback/" ++ id) d.
Definition deleteFeedback (id : string) := delete ("/feedback/" ++ id).

End feedbackService.

Module reportService.

Definition getReports (limit : option JS.Number) :=
  get ("/reports/?limit=" ++ JS.to_string (JS.Num (default (JS.Int 5) limit))).
Definition getReport (id : string) := get ("/reports/" ++ id).
Definition createReport (d : Body) := post "/reports/" d ∅.

End reportService.

Module userService.

Definition getUsers (limit : option string) :=
  get ("/users/?limit=" ++ default "10" limit).
Definition getUser (id : string) := get ("/users/" ++ id).
Definition createUser (d : Body) := post "/users/" d ∅.
Definition updateUser (id : string) (d : Body) := put ("/users/" ++ id) d.
Definition deleteUser (id : string) := delete ("/users/" ++ id).

End userService.

End Api.

(** ** contexts/AuthContext.js *)

Module AuthContext.

Record State := {
  user : JS.Value;
  isAuthenticated : bool;
  isLoading : bool;
  authError : JS.Value
}.

(** The [useState] initial values. *)
Definition initial : State :=
  {| user := JS.Null; isAuthenticated := false; isLoading := true; authError := JS.Null |}.

Definition setUser (u : JS.Value) (s : State) : State :=
  {| user := u; isAuthenticated := isAuthenticated s; isLoading := isLoading s;
     authError := authError s |}.
Definition setIsAuthenticated (b : bool) (s : State) : State :=
  {| user := user s; isAuthenticated := b; isLoading := isLoading s;
     authError := authError s |}.
Definition setIsLoading (b : bool) (s : State) : State :=
  {| user := user s; isAuthenticated := isAuthenticated s; isLoading := b;
     authError := authError s |}.
Definition setAuthError (e : JS.Value) (s : State) : State :=
  {| user := user s; isAuthenticated := isAuthenticated s; isLoading := isLoading s;
     authError := e |}.

(** What [login] resolves to: [{ success: true }] or
    [{ success: false, error }]. *)
Record LoginResult := { success : bool; error : JS.Value }.

(** The [catch] block: the message for what was thrown. *)
Definition errorMessage_of (thrown : Thrown) : JS.Value :=
  match thrown with
  | AxiosError e =>
      match response e with
      | Some r =>
          if JS.truthy (data r)
          then JS.or (JS.get (data r) "detail") (JS.Str "Login failed")
          else JS.Str "Network error. Please try again."
      | None => JS.Str "Network error. Please try again."
      end
  | TypeError => JS.Str "Network error. Please try again."
  end.

Definition login_request (username password : string) : Request :=
  {| method := POST; baseURL := ""; url := "/api/auth/token";
     headers := ∅;
     req_data := FormBody [("username", username); ("password", password)] |}.

(** [login(username, password)].  The result is [None] while the request is
    pending: the function has not returned and [finally] has not run. *)
Definition login (username password : string) (s : State) (w : World)
    : State * World * option LoginResult :=
  let s1 := setAuthError JS.Null (setIsLoading true s) in
  let cfg := login_request username password in
  let cfg := {| method := method cfg; baseURL := baseURL cfg; url := url cfg;
                headers := common_headers w; req_data := req_data cfg |} in
  let catch (thrown : Thrown) (w1 : World) :=
    let errorMessage := errorMessage_of thrown in
    (setIsLoading false (setAuthError errorMessage s1), w1,
     Some {| success := false; error := errorMessage |}) in
  match axios cfg w with
  | (w1, Fulfilled resp) =>
      if JS.nullish (data resp) then catch TypeError w1
      else
        let access_token := JS.get (data resp) "access_token" in
        let user_id := JS.get (data resp) "user_id" in
        let userName := JS.get (data resp) "username" in
        let role := JS.get (data resp) "role" in
        let w2 := setItem "token" (JS.to_string access_token) w1 in
        let w3 := set_common_headers
                    (<["Authorization" := "Bearer " ++ JS.to_string access_token]>
                       (common_headers w2)) w2 in
        let s2 := setIsAuthenticated true
                    (setUser (JS.Obj [("id", user_id); ("username", userName);
                                      ("role", role)]) s1) in
        (setIsLoading false s2, w3, Some {| success := true; error := JS.Undefined |})
  | (w1, Rejected thrown) => catch thrown w1
  | (w1, Pending) => (s1, w1, None)
  end.

Definition logout (s : State) (w : World) : State * World :=
  let w1 := removeItem "token" w in
  let w2 := set_common_headers (delete "Authorization" (common_headers w1)) w1 in
  (setIsAuthenticated false (setUser JS.Null s), w2).

Definition me_request (w : World) : Request :=
  {| method := GET; baseURL := ""; url := "/api/auth/me";
     headers := common_headers w; req_data := NoBody |}.

(** The effect that runs when the provider mounts.  While the request is
    pending nothing after the [await] has run. *)
Definition checkAuthStatus (s : State) (w : World) : State * World :=
  match getItem_truthy "token" w with
  | Some token =>
      let w1 := set_common_headers
                  (<["Authorization" := "Bearer " ++ token]> (common_headers w)) w in
      match axios (me_request w1) w1 with
      | (w2, Fulfilled resp) =>
          (setIsLoading false (setIsAuthenticated true (setUser (data resp) s)), w2)
      | (w2, Rejected _) =>
          let w3 := removeItem "token" w2 in
          (setIsLoading false s,
           set_common_headers (delete "Authorization" (common_headers w3)) w3)
      | (w2, Pending) => (s, w2)
      end
  | None => (setIsLoading false s, w)
  end.

(** The life of the context: the effect runs once, on the initial state,
    and then [login] and [logout] are called, each call running to its end
    before the next. *)
Inductive Event :=
| LoginCalled (username password : string)
| LogoutCalled.

Definition step (e : Event) (sw : State * World) : State * World :=
  let '(s, w) := sw in
  match e with
  | LoginCalled u p => let '(s', w', _) := login u p s w in (s', w')
  | LogoutCalled => logout s w
  end.

Definition run (es : list Event) (w : World) : State * World :=
  fold_left (fun acc e => step e acc) es (checkAuthStatus initial w).

End AuthContext.

(** ** App.js *)

Module App.

(** What a guarded route renders. *)
Inductive Rendered :=
| LoadingScreen
| Navigate (to : string)
| Children
| Throws.

(** [requiredRole] is [None] where the route gives none. *)
Definition ProtectedRoute (requiredRole : option string) (auth : AuthContext.State)
    : Rendered :=
  if AuthContext.isLoading auth then LoadingScreen
  else if negb (AuthContext.isAuthenticated auth) then Navigate "/login"
  else
    match requiredRole with
    | Some role =>
        if String.eqb role "" then Children
        else if JS.nullish (AuthContext.user auth) then Throws
        else if negb (JS.strict_eq_str (JS.get (AuthContext.user auth) "role") role)
        then Navigate "/dashboard"
        else Children
    | None => Children
    end.

(** The guarded routes of [App]: the path and the [requiredRole] prop. *)
Definition routes : list (string * option string) :=
  [("/dashboard", None); ("/upload", None); ("/predictions/:id", None);
   ("/history", None); ("/reports", None); ("/profile", None);
   ("/users", Some "admin")].

Fixpoint requiredRole_of (path : string) (rs : list (string * option string))
    : option (option string) :=
  match rs with
  | [] => None
  | (p, r) :: rest => if String.eqb path p then Some r else requiredRole_of path rest
  end.

(** What the router renders at a guarded path; [None] for a path that is not
    guarded. *)
Definition render_route (path : string) (auth : AuthContext.State) : option Rendered :=
  match requiredRole_of path routes with
  | Some r => Some (ProtectedRoute r auth)
  | None => None
  end.

End App.

(** ** react-query, as far as the pages use it

    A query key is a list of parts (['users'] for 'users'); a filter matches
    the keys it is a prefix of.  [invalidateQueries] marks the matching
    entries; a mounted, enabled query whose entry is absent or marked runs its
    query function again and stores the outcome, any other read is served
    from the cache. *)

Module ReactQuery.

Definition invalidate (filter : list string) (k : list string) (q : Query) : option Query :=
  Some (if bool_decide (filter `prefix_of` k)
        then {| qdata := qdata q; isInvalidated := true |}
        else q).

Definition invalidateQueries (filter : list string) (w : World) : World :=
  set_queries (map_imap (invalidate filter) (queries w)) w.

Definition cached (key : list string) (w : World) : JS.Value :=
  match queries w !! key with
  | Some q => qdata q
  | None => JS.Undefined
  end.

Definition is_fresh (key : list string) (w : World) : bool :=
  match queries w !! key with
  | Some q => negb (isInvalidated q)
  | None => false
  end.

(** [.then(res => res.data)] *)
Definition then_data (r : World * Promise Response) : World * Promise JS.Value :=
  match r with
  | (w, Fulfilled resp) => (w, Fulfilled (data resp))
  | (w, Rejected e) => (w, Rejected e)
  | (w, Pending) => (w, Pending)
  end.

(** The [data] that [useQuery(key, queryFn, { enabled })] gives a render. *)
Definition useQuery (key : list string)
    (queryFn : World -> World * Promise JS.Value) (enabled : bool) (w : World)
    : World * JS.Value :=
  if enabled && negb (is_fresh key w) then
    match queryFn w with
    | (w1, Fulfilled v) =>
        (set_queries (<[key := {| qdata := v; isInvalidated := false |}]> (queries w1)) w1, v)
    | (w1, _) => (w1, cached key w1)
    end
  else (w, cached key w).

(** The [isLoading] of a mutation, given the promise of its function. *)
Definition still_loading {A : Type} (p : Promise A) : bool :=
  match p with
  | Pending => true
  | _ => false
  end.

(** [useMutation(mutationFn, { onSuccess, onError }).mutate(...)], over a
    component state [S]. *)
Definition mutate {S : Type} (mutationFn : World -> World * Promise Response)
    (onSuccess : S -> World -> S * World)
    (onError : Thrown -> S -> World -> S * World)
    (s : S) (w : World) : S * World :=
  match mutationFn w with
  | (w1, Fulfilled _) => onSuccess s w1
  | (w1, Rejected e) => onError e s w1
  | (w1, Pending) => (s, w1)
  end.

End ReactQuery.

(** [error.response?.data?.detail] *)
Definition optional_detail (thrown : Thrown) : JS.Value :=
  match thrown with
  | AxiosError e =>
      match response e with
      | Some r => if JS.nullish (data r) then JS.Undefined else JS.get (data r) "detail"
      | None => JS.Undefined
      end
  | TypeError => JS.Undefined
  end.

(** ** pages/UserManagement.js *)

Module UserManagement.

Record State := {
  isAddUserModalOpen : bool;
  isEditUserModalOpen : bool;
  selectedUser : JS.Value;
  newUserData : JS.Value;
  editUserData : JS.Value
}.

Definition blank_user : JS.Value :=
  JS.Obj [("username", JS.Str ""); ("email", JS.Str ""); ("password", JS.Str "");
          ("full_name", JS.Str ""); ("role", JS.Str "doctor")].

Definition initial : State :=
  {| isAddUserModalOpen := false; isEditUserModalOpen := false;
     selectedUser := JS.Null; newUserData := blank_user;
     editUserData := JS.Obj [("full_name", JS.Str ""); ("email", JS.Str "");
                             ("role", JS.Str ""); ("is_active", JS.Bool true)] |}.

(** [enabled: !!user && user.role === 'admin'] *)
Definition users_enabled (user : JS.Value) : bool :=
  JS.truthy user && JS.strict_eq_str (JS.get user "role") "admin".

(** The users query of a render. *)
Definition users (user : JS.Value) (w : World) : World * JS.Value :=
  ReactQuery.useQuery ["users"]
    (fun w0 => ReactQuery.then_data (Api.userService.getUsers None w0))
    (users_enabled user) w.

Definition addUserMutation (userData : JS.Value) : State -> World -> State * World :=
  ReactQuery.mutate
    (Api.userService.createUser (JsonBody userData))
    (fun s w =>
       let w1 := toast (ToastSuccess "User created successfully") w in
       let s1 := {| isAddUserModalOpen := false;
                    isEditUserModalOpen := isEditUserModalOpen s;
                    selectedUser := selectedUser s;
                    newUserData := blank_user;
                    editUserData := editUserData s |} in
       (s1, ReactQuery.invalidateQueries ["users"] w1))
    (fun error s w =>
       let errorMessage := JS.or (optional_detail error) (JS.Str "Failed to create user") in
       (s, toast (ToastError errorMessage) w)).

Definition updateUserMutation (id : JS.Value) (d : JS.Value)
    : State -> World -> State * World :=
  ReactQuery.mutate
    (Api.userService.updateUser (JS.to_string id) (JsonBody d))
    (fun s w =>
       let w1 := toast (ToastSuccess "User updated successfully") w in
       let s1 := {| isAddUserModalOpen := isAddUserModalOpen s;
                    isEditUserModalOpen := false;
                    selectedUser := JS.Null;
                    newUserData := newUserData s;
                    editUserData := editUserData s |} in
       (s1, ReactQuery.invalidateQueries ["users"] w1))
    (fun error s w =>
       let errorMessage := JS.or (optional_detail error) (JS.Str "Failed to update user") in
       (s, toast (ToastError errorMessage) w)).

Definition deleteUserMutation (id : JS.Value) : State -> World -> State * World :=
  ReactQuery.mutate
    (Api.userService.deleteUser (JS.to_string id))
    (fun s w =>
       let w1 := toast (ToastSuccess "User deleted successfully") w in
       (s, ReactQuery.invalidateQueries ["users"] w1))
    (fun error s w =>
       let errorMessage := JS.or (optional_detail error) (JS.Str "Failed to delete user") in
       (s, toast (ToastError errorMessage) w)).

Definition handleAddUser (s : State) (w : World) : State * World :=
  addUserMutation (newUserData s) s w.


(** [confirmed] is the answer to [window.confirm]. *)
Definition handleDeleteUser (userId : JS.Value) (confirmed : bool) (s : State) (w : World)
    : State * World :=
  if confirmed then deleteUserMutation userId s w else (s, w).



Inductive View := AccessDenied | ManagementPage.

(** The early return of the component: [user && user.role !== 'admin']. *)
Definition render (user : JS.Value) : View :=
  if JS.truthy user && negb (JS.strict_eq_str (JS.get user "role") "admin")
  then AccessDenied else ManagementPage.

End UserManagement.

(** ** pages/PredictionDetail.js *)

Module PredictionDetail.

(** [feedbackData] and [reportData] are objects, updated under computed
    keys; the two flags are the [isLoading] of the two mutations. *)
Record State := {
  feedbackData : list (string * JS.Value);
  reportData : list (string * JS.Value);
  submitFeedback_isLoading : bool;
  generateReport_isLoading : bool
}.

(** The [useState] initial values, for the route parameter [id]. *)
Definition initial (id : string) : State :=
  {| feedbackData := [("diagnosis_id", JS.Num (JS.parseInt id));
                      ("feedback_text", JS.Str "");
                      ("override_diagnosis", JS.Str "");
                      ("rating", JS.Num (JS.Int 0))];
     reportData := [("diagnosis_id", JS.Num (JS.parseInt id));
                    ("report_type", JS.Str "pdf");
                    ("include_heatmaps", JS.Bool true);
                    ("additional_notes", JS.Str "")];
     submitFeedback_isLoading := false;
     generateReport_isLoading := false |}.

Definition handleFeedbackChange (name value : string) (s : State) : State :=
  {| feedbackData :=
       JS.set_prop name
         (if String.eqb name "rating" then JS.Num (JS.parseInt value) else JS.Str value)
         (feedbackData s);
     reportData := reportData s;
     submitFeedback_isLoading := submitFeedback_isLoading s;
     generateReport_isLoading := generateReport_isLoading s |}.


(** The feedback query of a render: [enabled: !!id]. *)
Definition feedback (id : string) (w : World) : World * JS.Value :=
  ReactQuery.useQuery ["feedback"; id]
    (fun w0 => ReactQuery.then_data (Api.feedbackService.getFeedback id w0))
    (negb (String.eqb id "")) w.

(** The mutation is loading from [mutate] until its promise settles. *)
Definition submitFeedbackMutation (d : JS.Value) (s : State) (w : World) : State * World :=
  let s1 := {| feedbackData := feedbackData s; reportData := reportData s;
               submitFeedback_isLoading :=
                 ReactQuery.still_loading
                   (snd (Api.feedbackService.createFeedback (JsonBody d) w));
               generateReport_isLoading := generateReport_isLoading s |} in
  ReactQuery.mutate
    (Api.feedbackService.createFeedback (JsonBody d))
    (fun s0 w0 => (s0, toast (ToastSuccess "Feedback submitted successfully") w0))
    (fun _ s0 w0 => (s0, toast (ToastError (JS.Str "Failed to submit feedback")) w0))
    s1 w.

Definition generateReportMutation (d : JS.Value) (s : State) (w : World) : State * World :=
  let s1 := {| feedbackData := feedbackData s; reportData := reportData s;
               submitFeedback_isLoading := submitFeedback_isLoading s;
               generateReport_isLoading :=
                 ReactQuery.still_loading
                   (snd (Api.reportService.createReport (JsonBody d) w)) |} in
  ReactQuery.mutate
    (Api.reportService.createReport (JsonBody d))
    (fun s0 w0 =>
       (s0, toast (ToastSuccess
          "Report generation started. It will be available in the Reports section soon.") w0))
    (fun _ s0 w0 => (s0, toast (ToastError (JS.Str "Failed to generate report")) w0))
    s1 w.

Definition handleSubmitFeedback (s : State) (w : World) : State * World :=
  submitFeedbackMutation (JS.Obj (feedbackData s)) s w.

Definition handleGenerateReport (s : State) (w : World) : State * World :=
  generateReportMutation (JS.Obj (reportData s)) s w.

(** [feedbackData.rating === 0] *)
Definition rating_is_zero (s : State) : bool :=
  match JS.get (JS.Obj (feedbackData s)) "rating" with
  | JS.Num n => JS.num_strict_eq n (JS.Int 0)
  | _ => false
  end.

(** The [disabled] attribute of the submit button of the feedback form. *)
Definition submit_disabled (s : State) : bool :=
  submitFeedback_isLoading s || rating_is_zero s.

(** The [value]s of the options of the rating [select]. *)
Definition rating_options : list string := ["0"; "1"; "2"; "3"; "4"; "5"].

(** The feedback form, as the browser drives it: a change event comes from
    one of its three controls, and the form is submitted through its only
    submit button, which does nothing while it is disabled. *)
Inductive Event :=
| ChangeRating (value : string)
| ChangeOverride (value : string)
| ChangeText (value : string)
| Submit.

Definition step (e : Event) (sw : State * World) : State * World :=
  let '(s, w) := sw in
  match e with
  | ChangeRating v => (handleFeedbackChange "rating" v s, w)
  | ChangeOverride v => (handleFeedbackChange "override_diagnosis" v s, w)
  | ChangeText v => (handleFeedbackChange "feedback_text" v s, w)
  | Submit => if submit_disabled s then (s, w) else handleSubmitFeedback s w
  end.

Definition run (es : list Event) (sw : State * World) : State * World :=
  fold_left (fun acc e => step e acc) es sw.

(** A rating change that the [select] can produce. *)
Definition from_form (e : Event) : Prop :=
  match e with
  | ChangeRating v => In v rating_options
  | _ => True
  end.






(** *** The predictions tab *)

Record Prediction := {
  (** the entries of [prediction_data] in property order, when it is set *)
  prediction_data : option (list (string * Q))
}.

Record Row := { label : string; confidence : Q }.

(** The comparator given to [sort]: [(a, b) => b[1] - a[1]]. *)
Definition compareFn (a b : string * Q) : Q := (snd b - snd a)%Q.

(** [Array.prototype.sort] is stable: an element moves behind exactly those
    on its right that the comparator puts strictly before it. *)
Fixpoint insert_sorted {A : Type} (cmp : A -> A -> Q) (x : A) (l : list A) : list A :=
  match l with
  | [] => [x]
  | y :: rest =>
      if Qle_bool (cmp x y) 0 then x :: l else y :: insert_sorted cmp x rest
  end.

Definition sort {A : Type} (cmp : A -> A -> Q) (l : list A) : list A :=
  foldr (insert_sorted cmp) [] l.

(** [prediction] is [None] while the query has no data. *)
Definition sortedPredictions (prediction : option Prediction) : list Row :=
  match prediction with
  | Some p =>
      match prediction_data p with
      | Some entries =>
          map (fun e => {| label := fst e; confidence := snd e |})
              (sort compareFn entries)
      | None => []
      end
  | None => []
  end.

End PredictionDetail.

(** ** pages/Upload.js *)

Module Upload.

Record State := {
  file : option JS.File;
  preview : option string;
  imageType : string;
  isUploading : bool;
  uploadProgress : Z
}.

Definition initial : State :=
  {| file := None; preview := None; imageType := "x-ray";
     isUploading := false; uploadProgress := 0 |}.

(** What [onDrop] does: it returns, or throws when [acceptedFiles] is empty
    and [selectedFile.type] is a read on [undefined]. *)
Inductive Dropped :=
| Returned (s : State) (w : World)
| Threw.

(** [previewUrl] is the URL that [URL.createObjectURL] gives the file. *)
Definition onDrop (acceptedFiles : list JS.File) (previewUrl : string)
    (s : State) (w : World) : Dropped :=
  match acceptedFiles with
  | [] => Threw
  | selectedFile :: _ =>
      if negb (String.prefix "image/" (JS.type selectedFile)) then
        Returned s (toast (ToastError (JS.Str "Please upload a valid image file")) w)
      else if JS.size selectedFile >? 16 * 1024 * 1024 then
        Returned s (toast (ToastError (JS.Str "File size exceeds 16MB limit")) w)
      else
        Returned {| file := Some selectedFile; preview := Some previewUrl;
                    imageType := imageType s; isUploading := isUploading s;
                    uploadProgress := uploadProgress s |} w
  end.

Definition clearFile (s : State) : State :=
  {| file := None; preview := None; imageType := imageType s;
     isUploading := isUploading s; uploadProgress := uploadProgress s |}.

Definition setImageType (v : string) (s : State) : State :=
  {| file := file s; preview := preview s; imageType := v;
     isUploading := isUploading s; uploadProgress := uploadProgress s |}.

Definition uploading (b : bool) (progress : Z) (s : State) : State :=
  {| file := file s; preview := preview s; imageType := imageType s;
     isUploading := b; uploadProgress := progress |}.

Definition getModelNameForImageType (type : string) : string :=
  if String.eqb type "x-ray" then "chest-xray"
  else if String.eqb type "brain-mri" then "brain-mri"
  else "chest-xray".

(** [error.response && error.response.data && error.response.data.detail] *)
Definition upload_detail (thrown : Thrown) : JS.Value :=
  match thrown with
  | AxiosError e =>
      match response e with
      | Some r => if JS.truthy (data r) then JS.get (data r) "detail" else data r
      | None => JS.Undefined
      end
  | TypeError => JS.Undefined
  end.

(** The [catch] and [finally] blocks of [handleUpload]. *)
Definition upload_failed (thrown : Thrown) (s : State) (w : World) : State * World :=
  let w1 := toast ToastDismiss w in
  let detail := upload_detail thrown in
  let w2 :=
    if JS.truthy detail
    then toast (ToastError (JS.Str ("Upload failed: " ++ JS.to_string detail))) w1
    else toast (ToastError (JS.Str "Upload failed. Please try again.")) w1 in
  (uploading false 0 s, w2).

(** [handleUpload].  The progress timer only moves [uploadProgress] between
    0 and 90 while the upload is awaited and is left out.  Where an awaited
    promise stays pending the function has not gone on. *)
Definition handleUpload (s : State) (w : World) : State * World :=
  match file s with
  | None => (s, toast (ToastError (JS.Str "Please select a file to upload")) w)
  | Some f =>
      let s1 := uploading true 0 s in
      let w1 := toast (ToastLoading "Uploading image...") w in
      match Api.imageService.uploadImage (FileBody f) w1 with
      | (w2, Pending) => (s1, w2)
      | (w2, Rejected thrown) => upload_failed thrown s1 w2
      | (w2, Fulfilled imageResponse) =>
          if JS.nullish (data imageResponse) then upload_failed TypeError s1 w2
          else
            let imageId := JS.get (data imageResponse) "id" in
            let s2 := uploading true 100 s1 in
            let w3 := toast (ToastLoading "Analyzing image with AI...")
                        (toast (ToastSuccess "Image uploaded successfully")
                           (toast ToastDismiss w2)) in
            match Api.predictionService.createPrediction
                    (JsonBody (JS.Obj
                       [("image_id", imageId);
                        ("model_name",
                         JS.Str (getModelNameForImageType (imageType s)))])) w3 with
            | (w4, Pending) => (s2, w4)
            | (w4, Rejected thrown) => upload_failed thrown s2 w4
            | (w4, Fulfilled predictionResponse) =>
                let w5 := toast (ToastSuccess "Analysis complete") (toast ToastDismiss w4) in
                if JS.nullish (data predictionResponse) then upload_failed TypeError s2 w5
                else
                  let target := "/predictions/" ++
                                JS.to_string (JS.get (data predictionResponse) "id") in
                  (uploading false 0 s2, set_location target w5)
            end
      end
  end.

(** The [value]s of the options of the image type [select]. *)
Definition imageType_options : list string :=
  ["x-ray"; "ct-scan"; "mri"; "brain-mri"; "ultrasound"].

(** The page, as the user drives it.  The upload button is disabled while
    there is no file or an upload is running; a drop that throws leaves the
    page as it was. *)
Inductive Event :=
| Drop (acceptedFiles : list JS.File) (previewUrl : string)
| ClearFile
| SelectImageType (v : string)
| ClickUpload.

Definition step (e : Event) (sw : State * World) : State * World :=
  let '(s, w) := sw in
  match e with
  | Drop fs u =>
      match onDrop fs u s w with
      | Returned s' w' => (s', w')
      | Threw => (s, w)
      end
  | ClearFile => (clearFile s, w)
  | SelectImageType v => (setImageType v s, w)
  | ClickUpload =>
      if negb (bool_decide (is_Some (file s))) || isUploading s then (s, w)
      else handleUpload s w
  end.

Definition run (es : list Event) (sw : State * World) : State * World :=
  fold_left (fun acc e => step e acc) es sw.

End Upload.

(** The requests that left the client between two worlds. *)
Definition issued (before after : World) : list Request :=
  drop (length (sent before)) (sent after).

(** ** The endpoints of the external interface *)

Module Endpoints.

(** A path given literally, or a literal prefix followed by one [{id}]
    segment. *)
Inductive Pattern :=
| Exact (p : string)
| WithId (p : string).

(** The path of a request URL: what comes before the query string. *)
Fixpoint path_of (u : string) : string :=
  match u with
  | EmptyString => EmptyString
  | String c rest => if Ascii.eqb c "?" then EmptyString else String c (path_of rest)
  end.

Fixpoint strip_prefix (p s : string) : option string :=
  match p, s with
  | EmptyString, _ => Some s
  | String a p', String b s' => if Ascii.eqb a b then strip_prefix p' s' else None
  | String _ _, EmptyString => None
  end.

Fixpoint has_char (c : ascii) (s : string) : bool :=
  match s with
  | EmptyString => false
  | String a rest => Ascii.eqb a c || has_char c rest
  end.

(** One path segment: not empty, no slash. *)
Definition is_segment (s : string) : bool :=
  negb (String.eqb s "") && negb (has_char "/" s).

Definition matches (pat : Pattern) (path : string) : bool :=
  match pat with
  | Exact p => String.eqb path p
  | WithId p =>
      match strip_prefix p path with
      | Some id => is_segment id
      | None => false
      end
  end.

Definition method_eqb (a b : Method) : bool :=
  match a, b with
  | GET, GET | POST, POST | PUT, PUT | DELETE, DELETE => true
  | _, _ => false
  end.

Definition any_method : list Method := [GET; POST; PUT; DELETE].

(** The list of the external-interface section.  An entry that the section
    gives without methods admits every method. *)
Definition listed : list (Pattern * list Method) :=
  [ (Exact "/auth/token", [POST]);
    (Exact "/auth/me", any_method);
    (Exact "/images/", [GET; POST]);
    (WithId "/images/", any_method);
    (Exact "/predictions/", [GET; POST]);
    (WithId "/predictions/", any_method);
    (WithId "/feedback/", [GET; POST; PUT; DELETE]);
    (Exact "/reports/", [GET; POST]);
    (Exact "/users/", [GET; POST; PUT; DELETE]) ].

(** The routes that the service layer uses beyond that list. *)
Definition unlisted : list (Pattern * list Method) :=
  [ (Exact "/auth/verify-token", [POST]);
    (Exact "/images/upload", [POST]);
    (Exact "/feedback/", [POST]);
    (WithId "/reports/", [GET]);
    (WithId "/users/", [GET; PUT; DELETE]) ].

Definition targets (table : list (Pattern * list Method)) (r : Request) : bool :=
  existsb (fun e => matches (fst e) (path_of (url r)) &&
                    existsb (method_eqb (method r)) (snd e)) table.

(** An id that interpolates to one path segment. *)
Definition valid_id (id : string) : bool :=
  is_segment id && negb (has_char "?" id).

(** The calls of the service layer. *)
Inductive Call :=
| Login (username password : string)
| GetCurrentUser
| VerifyToken
| Logout
| GetPredictions (limit : option JS.Number)
| GetPrediction (id : string)
| CreatePrediction (d : Body)
| GetImages (limit : option JS.Number)
| GetImage (id : string)
| UploadImage (formData : Body)
| GetFeedback (id : string)
| CreateFeedback (d : Body)
| UpdateFeedback (id : string) (d : Body)
| DeleteFeedback (id : string)
| GetReports (limit : option JS.Number)
| GetReport (id : string)
| CreateReport (d : Body)
| GetUsers (limit : option string)
| GetUser (id : string)
| CreateUser (d : Body)
| UpdateUser (id : string) (d : Body)
| DeleteUser (id : string).

(** The id that a call interpolates into its URL, when it has one. *)
Definition id_of (c : Call) : option string :=
  match c with
  | GetPrediction id | GetImage id | GetFeedback id | UpdateFeedback id _
  | DeleteFeedback id | GetReport id | GetUser id | UpdateUser id _
  | DeleteUser id => Some id
  | _ => None
  end.

Section Perform.

Variable JSON_stringify : JS.Value -> string.

(** The world after a call. *)
Definition perform (c : Call) (w : World) : World :=
  match c with
  | Login u p => fst (Api.authService.login JSON_stringify u p w)
  | GetCurrentUser => fst (Api.authService.getCurrentUser w)
  | VerifyToken => fst (Api.authService.verifyToken w)
  | Logout => Api.authService.logout w
  | GetPredictions l => fst (Api.predictionService.getPredictions l w)
  | GetPrediction id => fst (Api.predictionService.getPrediction id w)
  | CreatePrediction d => fst (Api.predictionService.createPrediction d w)
  | GetImages l => fst (Api.imageService.getImages l w)
  | GetImage id => fst (Api.imageService.getImage id w)
  | UploadImage d => fst (Api.imageService.uploadImage d w)
  | GetFeedback id => fst (Api.feedbackService.getFeedback id w)
  | CreateFeedback d => fst (Api.feedbackService.createFeedback d w)
  | UpdateFeedback id d => fst (Api.feedbackService.updateFeedback id d w)
  | DeleteFeedback id => fst (Api.feedbackService.deleteFeedback id w)
  | GetReports l => fst (Api.reportService.getReports l w)
  | GetReport id => fst (Api.reportService.getReport id w)
  | CreateReport d => fst (Api.reportService.createReport d w)
  | GetUsers l => fst (Api.userService.getUsers l w)
  | GetUser id => fst (Api.userService.getUser id w)
  | CreateUser d => fst (Api.userService.createUser d w)
  | UpdateUser id d => fst (Api.userService.updateUser id d w)
  | DeleteUser id => fst (Api.userService.deleteUser id w)
  end.

End Perform.

End Endpoints.

(** ** pages/Login.js *)

Module Login.

Record State := {
  formData : list (string * string);
  isSubmitting : bool;
  error : JS.Value
}.

Definition initial : State :=
  {| formData := [("username", ""); ("password", "")];
     isSubmitting := false; error := JS.Null |}.

Definition handleChange (name value : string) (s : State) : State :=
  {| formData := JS.set_field name value (formData s);
     isSubmitting := isSubmitting s; error := error s |}.

(** The text that [URLSearchParams.append] makes of a field. *)
Definition field_text (k : string) (s : State) : string :=
  match JS.field k (formData s) with
  | Some v => v
  | None => "undefined"
  end.

(** [handleSubmit].  [login] catches whatever it throws, so the [catch]
    block here is never entered; while [login] is pending the function has
    not gone past the [await]. *)
Definition handleSubmit (s : State) (auth : AuthContext.State) (w : World)
    : State * AuthContext.State * World :=
  let s1 := {| formData := formData s; isSubmitting := true; error := JS.Null |} in
  match AuthContext.login (field_text "username" s) (field_text "password" s) auth w with
  | (auth', w', Some result) =>
      if AuthContext.success result then
        ({| formData := formData s; isSubmitting := false; error := JS.Null |},
         auth', set_location "/dashboard" w')
      else
        ({| formData := formData s; isSubmitting := false;
            error := JS.or (AuthContext.error result)
                       (JS.Str "Login failed. Please check your credentials.") |},
         auth', w')
  | (auth', w', None) => (s1, auth', w')
  end.

(** What the banner above the form shows: [error || authError]. *)
Definition banner (s : State) (auth : AuthContext.State) : JS.Value :=
  JS.or (error s) (AuthContext.authError auth).

End Login.

(** ** components/layouts/MainLayout.js *)

Module MainLayout.

Record Item := { name : string; href : string }.

Definition navigation (user : JS.Value) : list Item :=
  [ {| name := "Dashboard"; href := "/dashboard" |};
    {| name := "Upload Image"; href := "/upload" |};
    {| name := "History"; href := "/history" |};
    {| name := "Reports"; href := "/reports" |};
    {| name := "Profile"; href := "/profile" |} ]
  ++ (if JS.truthy user && JS.strict_eq_str (JS.get user "role") "admin"
      then [ {| name := "User Management"; href := "/users" |} ]
      else []).

Definition handleLogout (auth : AuthContext.State) (w : World)
    : AuthContext.State * World :=
  let '(auth', w') := AuthContext.logout auth w in
  (auth', set_location "/login" w').

End MainLayout.

(** ** pages/History.js *)

Module History.

Definition limit : Z := 10.

(** [Math.max(old - 1, 1)] *)
Definition handlePreviousPage (page : Z) : Z := Z.max (page - 1) 1.

(** [data] is what the query gave the render. *)
Definition handleNextPage (d : JS.Value) (page : Z) : Z :=
  if JS.truthy d && JS.strict_eq_num (JS.length_of d) limit then page + 1 else page.

(** The query function: the service is given an object where it takes a
    number. *)
Definition queryFn (page : Z) (w : World) : World * Promise JS.Value :=
  ReactQuery.then_data
    (Api.predictionService.getPredictions
       (Some (JS.object_to_number
                [("skip", JS.Num (JS.Int ((page - 1) * limit)));
                 ("limit", JS.Num (JS.Int limit))])) w).

(** The query of a render, under the key ['diagnoses', page, limit]. *)
Definition diagnoses (page : Z) (w : World) : World * JS.Value :=
  ReactQuery.useQuery ["diagnoses"; pretty page; pretty limit] (queryFn page) true w.

(** The two pagination buttons; [d] is the data of the render in which the
    button is pressed. *)
Inductive Event :=
| Previous
| Next (d : JS.Value).

Definition step (page : Z) (e : Event) : Z :=
  match e with
  | Previous => handlePreviousPage page
  | Next d => handleNextPage d page
  end.

Definition run (es : list Event) (page : Z) : Z := fold_left step es page.

End History.

(** ** pages/Reports.js *)

Module Reports.

Definition limit : Z := 10.

Definition handlePreviousPage (page : Z) : Z := Z.max (page - 1) 1.

Definition handleNextPage (d : JS.Value) (page : Z) : Z :=
  if JS.truthy d && JS.strict_eq_num (JS.length_of d) limit then page + 1 else page.

Definition queryFn (page : Z) (w : World) : World * Promise JS.Value :=
  ReactQuery.then_data
    (Api.reportService.getReports
       (Some (JS.object_to_number
                [("skip", JS.Num (JS.Int ((page - 1) * limit)));
                 ("limit", JS.Num (JS.Int limit))])) w).

Definition reports (page : Z) (w : World) : World * JS.Value :=
  ReactQuery.useQuery ["reports"; pretty page; pretty limit] (queryFn page) true w.

Definition formatReportType (type : JS.Value) : string :=
  if JS.strict_eq_str type "pdf" then "PDF" else "Text".

End Reports.

(** ** pages/UserProfile.js *)

Module UserProfile.

Record State := {
  formData : list (string * string);
  passwordData : list (string * string)
}.

Definition blank_passwords : list (string * string) :=
  [("current_password", ""); ("new_password", ""); ("confirm_password", "")].

Definition initial : State :=
  {| formData := [("full_name", ""); ("email", "")]; passwordData := blank_passwords |}.

Definition handleProfileChange (name value : string) (s : State) : State :=
  {| formData := JS.set_field name value (formData s); passwordData := passwordData s |}.


(** A form object as the JSON body of a request, and what the read of one
    of its fields gives. *)
Definition as_json (fields : list (string * string)) : JS.Value :=
  JS.Obj (map (fun kv => (fst kv, JS.Str (snd kv))) fields).


(** [userService.updateUser(user.id, body)] inside a mutation function: the
    read of [user.id] throws when there is no user, which rejects the
    mutation. *)
Definition updateOwnUser (user : JS.Value) (body : JS.Value) (w : World)
    : World * Promise Response :=
  if JS.nullish user then (w, Rejected TypeError)
  else Api.userService.updateUser (JS.to_string (JS.get user "id")) (JsonBody body) w.

Definition updateProfileMutation (user : JS.Value) (d : list (string * string))
    : State -> World -> State * World :=
  ReactQuery.mutate
    (updateOwnUser user (as_json d))
    (fun s w => (s, toast (ToastSuccess "Profile updated successfully") w))
    (fun _ s w => (s, toast (ToastError (JS.Str "Failed to update profile")) w)).


Definition handleUpdateProfile (user : JS.Value) (s : State) (w : World) : State * World :=
  updateProfileMutation user (formData s) s w.

(** What [handleChangePassword] does: it returns, or throws on the
    [length] of an [undefined] new password. *)
Inductive Handled :=
| Returned (s : State) (w : World)
| Threw.


End UserProfile.

(** * Properties *)

Local Open Scope list_scope.

(** ** The vocabulary of the properties, and sample sessions *)

(** A request that is the same call as [cfg]: the interceptors only touch
    the headers. *)
Definition same_call (cfg r : Request) : Prop :=
  method r = method cfg /\ url r = url cfg /\ baseURL r = baseURL cfg /\
  req_data r = req_data cfg.

(** An answer that makes the client go again. *)
Definition is_redirect_answer (t : Transport) : bool :=
  match t with
  | Answer st _ => Api.is_redirect st
  | NoAnswer => false
  end.

(** A failed response: one that axios rejects. *)
Definition failed (t : Transport) : bool :=
  match t with
  | Answer st _ => negb (validateStatus st)
  | NoAnswer => true
  end.

(** A page that is shown while the network first redirects and then
    answers. *)
Definition redirecting_world : World :=
  {| localStorage := ∅; location := "/history"; common_headers := ∅; sent := [];
     network := [Answer 307 JS.Null; Answer 200 JS.Null];
     toasts := []; queries := ∅ |}.

(** A signed-in browser whose token the server no longer accepts. *)
Definition expired_world : World :=
  {| localStorage := {[ "token" := "abc" ]}; location := "/history";
     common_headers := ∅; sent := [];
     network := [Answer 401 (JS.Obj [("detail", JS.Str "Could not validate credentials")])];
     toasts := []; queries := ∅ |}.

(** The [detail] field of the body of an answer, if there is one. *)
Definition detail_of (t : Transport) : JS.Value :=
  match t with
  | Answer _ body => JS.get body "detail"
  | NoAnswer => JS.Undefined
  end.

(** A browser that is not signed in, and a server that turns the
    credentials down. *)
Definition signed_out_world : World :=
  {| localStorage := ∅; location := "/login"; common_headers := ∅; sent := [];
     network := [Answer 401 (JS.Obj [("detail", JS.Str "Incorrect username or password")])];
     toasts := []; queries := ∅ |}.

(** A doctor, signed in. *)
Definition doctor_session : AuthContext.State :=
  {| AuthContext.user := JS.Obj [("id", JS.Num (JS.Int 2)); ("username", JS.Str "doctor1");
                                 ("role", JS.Str "doctor")];
     AuthContext.isAuthenticated := true;
     AuthContext.isLoading := false;
     AuthContext.authError := JS.Null |}.

Definition upload_cfg (f : JS.File) : Request :=
  Api.mkRequest POST "/images/upload" (FileBody f)
    {[ "Content-Type" := "multipart/form-data" ]}.

Definition prediction_cfg (imageId : JS.Value) (type : string) : Request :=
  Api.mkRequest POST "/predictions/"
    (JsonBody (JS.Obj [("image_id", imageId);
                       ("model_name", JS.Str (Upload.getModelNameForImageType type))])) ∅.

Definition brain_scan : JS.File :=
  {| JS.name := "scan.png"; JS.type := "image/png"; JS.size := 2048 |}.

Definition ready_to_upload : Upload.State :=
  {| Upload.file := Some brain_scan; Upload.preview := Some "blob:1";
     Upload.imageType := "brain-mri"; Upload.isUploading := false;
     Upload.uploadProgress := 0 |}.

(** A signed-in browser and a server that stores the image and then the
    prediction. *)
Definition obliging_world : World :=
  {| localStorage := {[ "token" := "abc" ]}; location := "/upload";
     common_headers := ∅; sent := [];
     network := [Answer 201 (JS.Obj [("id", JS.Num (JS.Int 12))]);
                 Answer 201 (JS.Obj [("id", JS.Num (JS.Int 31))])];
     toasts := []; queries := ∅ |}.

(** The page keeps only files that passed both checks of [onDrop]. *)
Definition kept_file_ok (s : Upload.State) : Prop :=
  forall f, Upload.file s = Some f -> JS.size f <= 16 * 1024 * 1024.

Definition carries_ok (r : Request) : Prop :=
  forall f, req_data r = FileBody f -> JS.size f <= 16 * 1024 * 1024.

Definition huge_scan : JS.File :=
  {| JS.name := "volume.tiff"; JS.type := "image/tiff"; JS.size := 16 * 1024 * 1024 + 1 |}.

(** The rating that the form holds is one of the six selectable values. *)
Definition rating_in_range (s : PredictionDetail.State) : Prop :=
  exists z, JS.lookup_prop "rating" (PredictionDetail.feedbackData s) = JS.Num (JS.Int z) /\
            0 <= z <= 5.

(** A feedback submission with a rating between 1 and 5. *)
Definition rated_submission (r : Request) : Prop :=
  method r = POST /\ url r = "/feedback/" /\
  exists props z, req_data r = JsonBody (JS.Obj props) /\
                  JS.get (JS.Obj props) "rating" = JS.Num (JS.Int z) /\ 1 <= z <= 5.

(** A doctor on the page of prediction 7; the cache holds the answer that
    there is no feedback yet, and the server is about to store one. *)
Definition reviewing_world : World :=
  {| localStorage := {[ "token" := "abc" ]}; location := "/predictions/7";
     common_headers := ∅; sent := [];
     network := [Answer 201 (JS.Obj [("id", JS.Num (JS.Int 1))]);
                 Answer 200 (JS.Obj [("id", JS.Num (JS.Int 1));
                                     ("rating", JS.Num (JS.Int 4))])];
     toasts := [];
     queries := {[ ["feedback"; "7"] := {| qdata := JS.Null; isInvalidated := false |} ]} |}.

Definition four_stars : list PredictionDetail.Event :=
  [PredictionDetail.ChangeRating "4"; PredictionDetail.ChangeText "agree";
   PredictionDetail.Submit].

Definition to_row (e : string * Q) : PredictionDetail.Row :=
  {| PredictionDetail.label := fst e; PredictionDetail.confidence := snd e |}.

(** The order of the display: the confidence on the left is at least the
    confidence on the right. *)
Definition conf_ge (a b : string * Q) : Prop := (snd b <= snd a)%Q.

Definition row_ge (a b : PredictionDetail.Row) : Prop :=
  (PredictionDetail.confidence b <= PredictionDetail.confidence a)%Q.

(** The three mutations of the user-management page. *)
Inductive UserMutation :=
| AddUser (userData : JS.Value)
| UpdateUser (id d : JS.Value)
| DeleteUser (id : JS.Value).

Definition run_mutation (m : UserMutation)
    : UserManagement.State -> World -> UserManagement.State * World :=
  match m with
  | AddUser userData => UserManagement.addUserMutation userData
  | UpdateUser id d => UserManagement.updateUserMutation id d
  | DeleteUser id => UserManagement.deleteUserMutation id
  end.

(** The service call behind each of them. *)
Definition mutation_call (m : UserMutation) : World -> World * Promise Response :=
  match m with
  | AddUser userData => Api.userService.createUser (JsonBody userData)
  | UpdateUser id d => Api.userService.updateUser (JS.to_string id) (JsonBody d)
  | DeleteUser id => Api.userService.deleteUser (JS.to_string id)
  end.

(** An admin on the user-management page, with the list of users cached,
    and a server that deletes a user and then lists the users that remain. *)
Definition admin_world : World :=
  {| localStorage := {[ "token" := "abc" ]}; location := "/users";
     common_headers := ∅; sent := [];
     network := [Answer 204 JS.Null;
                 Answer 200 (JS.Arr [JS.Obj [("id", JS.Num (JS.Int 1))]])];
     toasts := [];
     queries := {[ ["users"] :=
                   {| qdata := JS.Arr [JS.Obj [("id", JS.Num (JS.Int 1))];
                                       JS.Obj [("id", JS.Num (JS.Int 3))]];
                      isInvalidated := false |} ]} |}.

Definition admin : JS.Value :=
  JS.Obj [("id", JS.Num (JS.Int 1)); ("username", JS.Str "admin1"); ("role", JS.Str "admin")].

(** The request configuration of a call; [Logout] sends nothing. *)
Definition call_cfg (c : Endpoints.Call) : option Request :=
  match c with
  | Endpoints.Login u p =>
      Some (Api.mkRequest POST "/auth/token"
              (FormBody [("username", u); ("password", p)])
              {[ "Content-Type" := "application/x-www-form-urlencoded" ]})
  | Endpoints.GetCurrentUser => Some (Api.mkRequest GET "/auth/me" NoBody ∅)
  | Endpoints.VerifyToken => Some (Api.mkRequest POST "/auth/verify-token" NoBody ∅)
  | Endpoints.Logout => None
  | Endpoints.GetPredictions l =>
      Some (Api.mkRequest GET
              ("/predictions/?limit=" ++ JS.to_string (JS.Num (default (JS.Int 5) l)))%string
              NoBody ∅)
  | Endpoints.GetPrediction id =>
      Some (Api.mkRequest GET ("/predictions/" ++ id)%string NoBody ∅)
  | Endpoints.CreatePrediction d => Some (Api.mkRequest POST "/predictions/" d ∅)
  | Endpoints.GetImages l =>
      Some (Api.mkRequest GET
              ("/images/?limit=" ++ JS.to_string (JS.Num (default (JS.Int 1) l)))%string
              NoBody ∅)
  | Endpoints.GetImage id => Some (Api.mkRequest GET ("/images/" ++ id)%string NoBody ∅)
  | Endpoints.UploadImage d =>
      Some (Api.mkRequest POST "/images/upload" d
              {[ "Content-Type" := "multipart/form-data" ]})
  | Endpoints.GetFeedback id => Some (Api.mkRequest GET ("/feedback/" ++ id)%string NoBody ∅)
  | Endpoints.CreateFeedback d => Some (Api.mkRequest POST "/feedback/" d ∅)
  | Endpoints.UpdateFeedback id d => Some (Api.mkRequest PUT ("/feedback/" ++ id)%string d ∅)
  | Endpoints.DeleteFeedback id =>
      Some (Api.mkRequest DELETE ("/feedback/" ++ id)%string NoBody ∅)
  | Endpoints.GetReports l =>
      Some (Api.mkRequest GET
              ("/reports/?limit=" ++ JS.to_string (JS.Num (default (JS.Int 5) l)))%string
              NoBody ∅)
  | Endpoints.GetReport id => Some (Api.mkRequest GET ("/reports/" ++ id)%string NoBody ∅)
  | Endpoints.CreateReport d => Some (Api.mkRequest POST "/reports/" d ∅)
  | Endpoints.GetUsers l =>
      Some (Api.mkRequest GET ("/users/?limit=" ++ default "10" l)%string NoBody ∅)
  | Endpoints.GetUser id => Some (Api.mkRequest GET ("/users/" ++ id)%string NoBody ∅)
  | Endpoints.CreateUser d => Some (Api.mkRequest POST "/users/" d ∅)
  | Endpoints.UpdateUser id d => Some (Api.mkRequest PUT ("/users/" ++ id)%string d ∅)
  | Endpoints.DeleteUser id => Some (Api.mkRequest DELETE ("/users/" ++ id)%string NoBody ∅)
  end.

(** The number of redirect answers at the head of what the network is going
    to say. *)
Fixpoint leading_redirects (net : list Transport) : nat :=
  match net with
  | t :: rest => if is_redirect_answer t then S (leading_redirects rest) else O
  | [] => O
  end.

(** A signed-in browser whose next request the server answers with the user
    of the token. *)
Definition trusted_world : World :=
  {| localStorage := {[ "token" := "abc" ]}; location := "/dashboard";
     common_headers := ∅; sent := [];
     network := [Answer 200 (JS.Obj [("username", JS.Str "doctor1")])];
     toasts := []; queries := ∅ |}.

(** A browser that is not signed in, and a server that accepts the
    credentials. *)
Definition welcoming_world : World :=
  {| localStorage := ∅; location := "/login"; common_headers := ∅; sent := [];
     network := [Answer 200 (JS.Obj [("access_token", JS.Str "abc");
                                     ("user_id", JS.Num (JS.Int 2));
                                     ("username", JS.Str "doctor1");
                                     ("role", JS.Str "doctor")])];
     toasts := []; queries := ∅ |}.

(** While the context says that someone is signed in, a token is stored and
    the default headers of axios carry it as the bearer token. *)
Definition session_ok (s : AuthContext.State) (w : World) : Prop :=
  AuthContext.isAuthenticated s = true ->
  exists tok, localStorage w !! "token" = Some tok /\
              common_headers w !! "Authorization" = Some ("Bearer " ++ tok)%string.

(** An administrator, signed in. *)
Definition admin_session : AuthContext.State :=
  {| AuthContext.user := admin; AuthContext.isAuthenticated := true;
     AuthContext.isLoading := false; AuthContext.authError := JS.Null |}.



(** The decimal digits that a number other than 0 can start with. *)
Definition leading_digit (c : ascii) : Prop :=
  In c ["1"; "2"; "3"; "4"; "5"; "6"; "7"; "8"; "9"]%char.




(** The presses of the next button that find a full page. *)
Definition full_pages (es : list History.Event) : Z :=
  Z.of_nat (length (List.filter (fun e => match e with
                            | History.Next d =>
                                JS.truthy d && JS.strict_eq_num (JS.length_of d) History.limit
                            | History.Previous => false
                            end) es)).



(** The rows, or the entries, whose confidence is [c]. *)
Definition rows_at (c : Q) (rows : list PredictionDetail.Row) : list PredictionDetail.Row :=
  List.filter (fun row => Qeq_bool (PredictionDetail.confidence row) c) rows.

Definition entries_at (c : Q) (entries : list (string * Q)) : list (string * Q) :=
  List.filter (fun e => Qeq_bool (snd e) c) entries.

(** The fallback message of each user mutation. *)
Definition mutation_fallback (m : UserMutation) : string :=
  match m with
  | AddUser _ => "Failed to create user"
  | UpdateUser _ _ => "Failed to update user"
  | DeleteUser _ => "Failed to delete user"
  end.

(** An admin whose request the server turns down with a reason. *)
Definition refusing_world : World :=
  {| localStorage := {[ "token" := "abc" ]}; location := "/users";
     common_headers := ∅; sent := [];
     network := [Answer 400 (JS.Obj [("detail", JS.Str "Username already registered")])];
     toasts := []; queries := ∅ |}.


(** ** The api client: what leaves it, and when it tries again *)

Lemma same_call_refl cfg : same_call cfg cfg.
Proof. by repeat split. Qed.

Lemma same_call_trans a b c : same_call a b -> same_call b c -> same_call a c.
Proof. intros (?&?&?&?) (?&?&?&?). repeat split; congruence. Qed.

Lemma request_interceptor_same w cfg : same_call cfg (Api.request_interceptor w cfg).
Proof.
  unfold Api.request_interceptor. destruct (getItem_truthy "token" w); by repeat split.
Qed.

Lemma settle_inl cfg t resp : settle cfg t = inl resp -> config resp = cfg.
Proof.
  destruct t as [st body|]; simpl; [|discriminate].
  destruct (validateStatus st); intros [= <-]; reflexivity.
Qed.

Lemma settle_inr cfg t e : settle cfg t = inr e -> err_config e = cfg.
Proof.
  destruct t as [st body|]; simpl.
  - destruct (validateStatus st); intros [= <-]; reflexivity.
  - intros [= <-]; reflexivity.
Qed.

Lemma issued_app before after new :
  sent after = sent before ++ new -> issued before after = new.
Proof. intros E. unfold issued. rewrite E. apply drop_app_length. Qed.

Lemma issued_refl w : issued w w = [].
Proof. apply issued_app. by rewrite app_nil_r. Qed.

Lemma on_response_cases w resp :
  (Api.on_response w resp = Api.Reissue (config resp)) \/
  (Api.on_response w resp = Api.Settled w (Fulfilled resp)).
Proof. unfold Api.on_response. destruct (Api.is_redirect _); auto. Qed.

Lemma on_error_cases w e :
  (Api.on_error w e = Api.Reissue (err_config e)) \/
  (exists w', Api.on_error w e = Api.Settled w' (Rejected (AxiosError e)) /\
              sent w' = sent w).
Proof.
  unfold Api.on_error. destruct (response e) as [r|]; [|right; eauto].
  destruct (status r =? 401); [right; eauto|].
  destruct (Api.is_redirect _); [left|right]; eauto.
Qed.

(** Every run of the client sends its request at least once, and whatever it
    sends is that same call. *)
Lemma dispatch_sent net : forall w cfg,
  exists new, sent (fst (Api.dispatch net w cfg)) = sent w ++ new /\
              new <> [] /\ Forall (same_call cfg) new.
Proof.
  induction net as [|t rest IH]; intros w cfg; simpl.
  - exists [Api.request_interceptor w cfg]. split; [reflexivity|].
    split; [discriminate|]. constructor; [apply request_interceptor_same|constructor].
  - set (cfg' := Api.request_interceptor w cfg).
    set (w2 := set_network rest (log_request cfg' w)).
    assert (Hsame : same_call cfg cfg') by apply request_interceptor_same.
    assert (Hre : exists new,
               sent (fst (Api.dispatch rest w2 cfg')) = sent w ++ new /\
               new <> [] /\ Forall (same_call cfg) new).
    { destruct (IH w2 cfg') as (new & E & _ & F).
      exists (cfg' :: new). split.
      - rewrite E. simpl. by rewrite <- app_assoc.
      - split; [discriminate|]. constructor; [done|].
        eapply Forall_impl; [exact F|]. intros r Hr.
        eapply same_call_trans; eauto. }
    assert (Hone : forall w', sent w' = sent w2 ->
               exists new, sent w' = sent w ++ new /\ new <> [] /\
                           Forall (same_call cfg) new).
    { intros w' E. exists [cfg']. split; [by rewrite E|].
      split; [discriminate|]. constructor; [exact Hsame|constructor]. }
    destruct (settle cfg' t) as [resp|e] eqn:Es.
    + destruct (on_response_cases w2 resp) as [-> | ->].
      * by rewrite (settle_inl _ _ _ Es).
      * by apply Hone.
    + destruct (on_error_cases w2 e) as [-> | (w' & -> & E)].
      * by rewrite (settle_inr _ _ _ Es).
      * by apply Hone.
Qed.

Lemma api_sent cfg w :
  exists new, issued w (fst (Api.api cfg w)) = new /\
              sent (fst (Api.api cfg w)) = sent w ++ new /\
              new <> [] /\ Forall (same_call cfg) new.
Proof.
  destruct (dispatch_sent (network w) w cfg) as (new & E & N & F).
  exists new. split; [by apply issued_app|]. by repeat split.
Qed.

Lemma redirect_failed t : is_redirect_answer t = true -> failed t = true.
Proof.
  destruct t as [st body|]; simpl; [|done]. unfold Api.is_redirect, validateStatus.
  intros H. apply orb_true_iff in H. destruct H as [H|H]; apply Z.eqb_eq in H; by subst.
Qed.

Lemma dispatch_redirect t rest w cfg :
  is_redirect_answer t = true ->
  Api.dispatch (t :: rest) w cfg =
  Api.dispatch rest
    (set_network rest (log_request (Api.request_interceptor w cfg) w))
    (Api.request_interceptor w cfg).
Proof.
  intros H. destruct t as [st body|]; [|discriminate]. simpl in H.
  assert (Hv : validateStatus st = false).
  { pose proof (redirect_failed (Answer st body) H) as F. simpl in F.
    by destruct (validateStatus st). }
  assert (H401 : (st =? 401) = false).
  { unfold Api.is_redirect in H. apply orb_true_iff in H.
    destruct H as [H|H]; apply Z.eqb_eq in H; by subst. }
  simpl. rewrite Hv. unfold Api.on_error. simpl. by rewrite H401, H.
Qed.

(** C3, as stated, fails: the answer 307 is a failed response (axios rejects
    it), and the client then sends the same request a second time by itself;
    the caller gets the answer to that second request. *)
Lemma api_reissues_after_307 :
  let cfg := Api.mkRequest GET "/predictions/7" NoBody ∅ in
  let after := Api.api cfg redirecting_world in
  failed (Answer 307 JS.Null) = true /\
  length (issued redirecting_world (fst after)) = 2%nat /\
  Forall (same_call cfg) (issued redirecting_world (fst after)) /\
  exists resp, snd after = Fulfilled resp /\ status resp = 200.
Proof.
  cbv zeta. split; [reflexivity|]. split; [reflexivity|]. split.
  - destruct (api_sent (Api.mkRequest GET "/predictions/7" NoBody ∅) redirecting_world)
      as (new & <- & _ & _ & F). exact F.
  - eexists. split; reflexivity.
Qed.

(** C3, amended: a failed response ends the request, which is rejected to the
    caller after having been sent once, unless the status of the response is
    307 or 308; on those the client sends the original request again. *)
Theorem api_failure_terminal_unless_redirect cfg w t rest :
  network w = t :: rest ->
  failed t = true ->
  let cfg' := Api.request_interceptor w cfg in
  if is_redirect_answer t then
    Api.api cfg w =
      Api.dispatch rest (set_network rest (log_request cfg' w)) cfg' /\
    (2 <= length (issued w (fst (Api.api cfg w))))%nat
  else
    issued w (fst (Api.api cfg w)) = [cfg'] /\
    network (fst (Api.api cfg w)) = rest /\
    exists e, settle cfg' t = inr e /\
              snd (Api.api cfg w) = Rejected (AxiosError e).
Proof.
  intros Hnet Hfail cfg'. unfold Api.api. rewrite Hnet.
  destruct (is_redirect_answer t) eqn:Hred.
  - rewrite (dispatch_redirect _ _ _ _ Hred). fold cfg'. split; [reflexivity|].
    set (w2 := set_network rest (log_request cfg' w)).
    destruct (dispatch_sent rest w2 cfg') as (new & E & N & _).
    assert (E' : sent (fst (Api.dispatch rest w2 cfg')) = sent w ++ cfg' :: new).
    { rewrite E. simpl. by rewrite <- app_assoc. }
    rewrite (issued_app _ _ _ E'). destruct new; [done|simpl; lia].
  - destruct t as [st body|]; simpl in *.
    + destruct (validateStatus st) eqn:Hv; [discriminate|]. fold cfg'.
      unfold Api.on_error. simpl.
      destruct (st =? 401) eqn:H401; [|rewrite Hred]; simpl.
      * split; [by apply issued_app|]. split; [reflexivity|]. eauto.
      * split; [by apply issued_app|]. split; [reflexivity|]. eauto.
    + fold cfg'. unfold Api.on_error. simpl.
      split; [by apply issued_app|]. split; [reflexivity|]. eauto.
Qed.

Lemma api_failure_terminal_unless_redirect_witness :
  let w := set_network [Answer 500 JS.Null] redirecting_world in
  let cfg := Api.mkRequest GET "/predictions/7" NoBody ∅ in
  issued w (fst (Api.api cfg w)) = [Api.request_interceptor w cfg] /\
  network (fst (Api.api cfg w)) = [] /\
  exists e, settle (Api.request_interceptor w cfg) (Answer 500 JS.Null) = inr e /\
            snd (Api.api cfg w) = Rejected (AxiosError e).
Proof.
  exact (api_failure_terminal_unless_redirect
           (Api.mkRequest GET "/predictions/7" NoBody ∅)
           (set_network [Answer 500 JS.Null] redirecting_world)
           (Answer 500 JS.Null) [] eq_refl eq_refl).
Defined.

(** ** 401 *)

Lemma dispatch_401 pre : forall w cfg body rest,
  Forall (fun t => is_redirect_answer t = true) pre ->
  exists w' e r,
    Api.dispatch (pre ++ Answer 401 body :: rest) w cfg = (w', Rejected (AxiosError e)) /\
    response e = Some r /\ status r = 401 /\ data r = body /\
    same_call cfg (config r) /\
    localStorage w' = delete "token" (localStorage w) /\
    location w' = "/login" /\ network w' = rest.
Proof.
  induction pre as [|t pre IH]; intros w cfg body rest Hpre.
  - simpl. unfold Api.on_error. simpl. do 3 eexists.
    split; [reflexivity|]. simpl. repeat split; try reflexivity;
      apply request_interceptor_same.
  - apply Forall_cons in Hpre as [Ht Hpre].
    rewrite <- app_comm_cons, (dispatch_redirect _ _ _ _ Ht).
    set (cfg' := Api.request_interceptor w cfg).
    destruct (IH (set_network (pre ++ Answer 401 body :: rest) (log_request cfg' w))
                 cfg' body rest Hpre)
      as (w' & e & r & E & ? & ? & ? & Hs & ? & ? & ?).
    exists w', e, r. do 4 (split; [done|]).
    split; [|done].
    eapply same_call_trans; [apply request_interceptor_same|exact Hs].
Qed.

(** C4: a response with status 401 that reaches the api client (as the
    first answer, or as the answer to a request that the client sent again
    after redirects) removes the stored token and nothing else from
    [localStorage], sends the browser to the login page, and the promise of
    the caller is rejected with the error that carries that response. *)
Theorem api_401_clears_token_and_redirects cfg w pre body rest :
  network w = pre ++ Answer 401 body :: rest ->
  Forall (fun t => is_redirect_answer t = true) pre ->
  exists w' e r,
    Api.api cfg w = (w', Rejected (AxiosError e)) /\
    response e = Some r /\ status r = 401 /\ data r = body /\
    same_call cfg (config r) /\
    localStorage w' !! "token" = None /\
    (forall k, k <> "token" -> localStorage w' !! k = localStorage w !! k) /\
    location w' = "/login".
Proof.
  intros Hnet Hpre. unfold Api.api. rewrite Hnet.
  destruct (dispatch_401 pre w cfg body rest Hpre)
    as (w' & e & r & E & ? & ? & ? & ? & Hls & ? & _).
  exists w', e, r. do 5 (split; [done|]). rewrite Hls.
  split; [apply lookup_delete_eq|]. split; [|done].
  intros k Hk. by apply lookup_delete_ne.
Qed.

Lemma api_401_clears_token_and_redirects_witness :
  exists w' e r,
    Api.api (Api.mkRequest GET "/predictions/7" NoBody ∅) expired_world
      = (w', Rejected (AxiosError e)) /\
    response e = Some r /\ status r = 401 /\
    data r = JS.Obj [("detail", JS.Str "Could not validate credentials")] /\
    same_call (Api.mkRequest GET "/predictions/7" NoBody ∅) (config r) /\
    localStorage w' !! "token" = None /\
    (forall k, k <> "token" -> localStorage w' !! k = localStorage expired_world !! k) /\
    location w' = "/login".
Proof.
  apply (api_401_clears_token_and_redirects
           (Api.mkRequest GET "/predictions/7" NoBody ∅) expired_world []
           (JS.Obj [("detail", JS.Str "Could not validate credentials")]) []).
  - reflexivity.
  - constructor.
Defined.

(** ** Login *)

Lemma falsy_has_no_property v k : JS.truthy v = false -> JS.get v k = JS.Undefined.
Proof. by destruct v. Qed.

Lemma errorMessage_of_settle cfg t e :
  settle cfg t = inr e ->
  AuthContext.errorMessage_of (AxiosError e) =
    if JS.truthy (detail_of t) then detail_of t
    else match t with
         | Answer _ body =>
             if JS.truthy body then JS.Str "Login failed"
             else JS.Str "Network error. Please try again."
         | NoAnswer => JS.Str "Network error. Please try again."
         end.
Proof.
  destruct t as [st body|]; simpl.
  - destruct (validateStatus st); intros [= <-]; simpl.
    destruct (JS.truthy body) eqn:Hb.
    + unfold JS.or. by destruct (JS.truthy (JS.get body "detail")).
    + by rewrite (falsy_has_no_property _ _ Hb).
  - by intros [= <-].
Qed.

(** C2: when the POST to /auth/token is rejected, [login] writes nothing to
    [localStorage] (and nothing to the default headers), leaves [user] and
    [isAuthenticated] as they were, so unset if they were unset, and
    always ends with a message: the [detail] field of the response where the
    response has one (a truthy one, which is what the [||] of the code
    tests), and otherwise one of the two fallback messages.  That message is
    the auth error and the error of the result, whose success is false. *)
Theorem login_failure_sets_no_token_and_reports username password s w t rest :
  network w = t :: rest ->
  failed t = true ->
  exists s' w' msg,
    AuthContext.login username password s w =
      (s', w', Some {| AuthContext.success := false; AuthContext.error := msg |}) /\
    localStorage w' = localStorage w /\
    common_headers w' = common_headers w /\
    AuthContext.user s' = AuthContext.user s /\
    AuthContext.isAuthenticated s' = AuthContext.isAuthenticated s /\
    AuthContext.authError s' = msg /\
    JS.truthy msg = true /\
    (JS.truthy (detail_of t) = true -> msg = detail_of t) /\
    (JS.truthy (detail_of t) = false ->
       msg = JS.Str "Login failed" \/ msg = JS.Str "Network error. Please try again.").
Proof.
  intros Hnet Hfail. unfold AuthContext.login, axios. rewrite Hnet.
  set (cfg := {| method := _ |}).
  assert (exists e, settle cfg t = inr e) as [e He].
  { destruct t as [st body|]; simpl in *; [|eauto].
    destruct (validateStatus st); [discriminate|eauto]. }
  rewrite He. do 3 eexists. split; [reflexivity|].
  do 5 (split; [reflexivity|]).
  rewrite (errorMessage_of_settle _ _ _ He).
  destruct (JS.truthy (detail_of t)) eqn:Hd.
  - split; [exact Hd|]. split; [done|discriminate].
  - split; [|split; [discriminate|]].
    + destruct t as [? body|]; [destruct (JS.truthy body)|]; reflexivity.
    + intros _. destruct t as [? body|]; [destruct (JS.truthy body)|]; auto.
Qed.

Lemma login_failure_sets_no_token_and_reports_witness :
  exists s' w' msg,
    AuthContext.login "doctor1" "wrong" AuthContext.initial signed_out_world =
      (s', w', Some {| AuthContext.success := false; AuthContext.error := msg |}) /\
    localStorage w' = localStorage signed_out_world /\
    common_headers w' = common_headers signed_out_world /\
    AuthContext.user s' = JS.Null /\
    AuthContext.isAuthenticated s' = false /\
    AuthContext.authError s' = msg /\
    JS.truthy msg = true /\
    msg = JS.Str "Incorrect username or password".
Proof.
  destruct (login_failure_sets_no_token_and_reports "doctor1" "wrong"
              AuthContext.initial signed_out_world
              (Answer 401 (JS.Obj [("detail", JS.Str "Incorrect username or password")]))
              [] eq_refl eq_refl)
    as (s' & w' & msg & E & Hls & Hh & Hu & Ha & He & Ht & Hd & _).
  exists s', w', msg. repeat split; try assumption. exact (Hd eq_refl).
Defined.

(** The sibling [authService.login] goes through the api client; when its
    promise is rejected it has written nothing either: [localStorage] is as
    it was, or has lost the token to a 401. *)
Lemma dispatch_localStorage net : forall w cfg,
  localStorage (fst (Api.dispatch net w cfg)) = localStorage w \/
  localStorage (fst (Api.dispatch net w cfg)) = delete "token" (localStorage w).
Proof.
  induction net as [|t rest IH]; intros w cfg; simpl; [by left|].
  set (cfg' := Api.request_interceptor w cfg).
  set (w2 := set_network rest (log_request cfg' w)).
  destruct (settle cfg' t) as [resp|e].
  - unfold Api.on_response. destruct (Api.is_redirect _); [|by left].
    destruct (IH w2 (config resp)) as [H|H]; [left|right]; exact H.
  - unfold Api.on_error. destruct (response e) as [r|]; [|by left].
    destruct (status r =? 401); [by right|].
    destruct (Api.is_redirect _); [|by left].
    destruct (IH w2 (err_config e)) as [H|H]; [left|right]; exact H.
Qed.

Lemma authService_login_rejected_writes_nothing stringify username password w w' thrown :
  Api.authService.login stringify username password w = (w', Rejected thrown) ->
  localStorage w' = localStorage w \/
  localStorage w' = delete "token" (localStorage w).
Proof.
  unfold Api.authService.login, Api.post, Api.api.
  set (cfg := Api.mkRequest _ _ _ _).
  pose proof (dispatch_localStorage (network w) w cfg) as H.
  destruct (Api.dispatch (network w) w cfg) as [w1 [resp|e|]]; simpl in H.
  - destruct (JS.nullish (data resp)); [by intros [= <- _]|].
    destruct (JS.truthy _); discriminate.
  - by intros [= <- _].
  - discriminate.
Qed.

(** ** The user-management route *)

Lemma strict_eq_str_true v s : JS.strict_eq_str v s = true <-> v = JS.Str s.
Proof.
  destruct v; simpl; try (split; [discriminate|by intros [=]]).
  rewrite String.eqb_eq. split; [by intros ->|by intros [= ->]].
Qed.

Lemma strict_eq_str_false v s : v <> JS.Str s -> JS.strict_eq_str v s = false.
Proof.
  intros H. destruct (JS.strict_eq_str v s) eqn:E; [|done].
  by apply strict_eq_str_true in E.
Qed.

(** C5: for a signed-in user (an object) whose role is not 'admin', the
    /users route never renders the page: once the session has loaded it
    renders the redirect to the dashboard.  The users query is disabled, so
    a render of the page sends nothing, and the page itself returns the
    access-denied view. *)
Theorem non_admin_is_kept_from_user_management auth props :
  AuthContext.isAuthenticated auth = true ->
  AuthContext.user auth = JS.Obj props ->
  JS.lookup_prop "role" props <> JS.Str "admin" ->
  App.render_route "/users" auth <> Some App.Children /\
  (AuthContext.isLoading auth = false ->
   App.render_route "/users" auth = Some (App.Navigate "/dashboard")) /\
  UserManagement.users_enabled (AuthContext.user auth) = false /\
  (forall w, fst (UserManagement.users (AuthContext.user auth) w) = w /\
             issued w (fst (UserManagement.users (AuthContext.user auth) w)) = []) /\
  UserManagement.render (AuthContext.user auth) = UserManagement.AccessDenied.
Proof.
  intros Hauth Huser Hrole.
  assert (Hne : JS.strict_eq_str (JS.get (AuthContext.user auth) "role") "admin" = false).
  { rewrite Huser. simpl. by apply strict_eq_str_false. }
  assert (Hroute : App.render_route "/users" auth =
            Some (if AuthContext.isLoading auth then App.LoadingScreen
                  else App.Navigate "/dashboard")).
  { unfold App.render_route. simpl. unfold App.ProtectedRoute.
    rewrite Hauth, Hne, Huser. simpl. by destruct (AuthContext.isLoading auth). }
  assert (Hen : UserManagement.users_enabled (AuthContext.user auth) = false).
  { unfold UserManagement.users_enabled. rewrite Hne. apply andb_false_r. }
  split; [|split; [|split; [|split]]].
  - rewrite Hroute. by destruct (AuthContext.isLoading auth).
  - intros Hl. by rewrite Hroute, Hl.
  - exact Hen.
  - intros w. unfold UserManagement.users, ReactQuery.useQuery. rewrite Hen. simpl.
    split; [reflexivity|apply issued_refl].
  - unfold UserManagement.render. rewrite Hne, Huser. reflexivity.
Qed.

Lemma non_admin_is_kept_from_user_management_witness :
  App.render_route "/users" doctor_session <> Some App.Children /\
  (AuthContext.isLoading doctor_session = false ->
   App.render_route "/users" doctor_session = Some (App.Navigate "/dashboard")) /\
  UserManagement.users_enabled (AuthContext.user doctor_session) = false /\
  (forall w, fst (UserManagement.users (AuthContext.user doctor_session) w) = w /\
             issued w (fst (UserManagement.users (AuthContext.user doctor_session) w)) = []) /\
  UserManagement.render (AuthContext.user doctor_session) = UserManagement.AccessDenied.
Proof.
  apply (non_admin_is_kept_from_user_management doctor_session
           [("id", JS.Num (JS.Int 2)); ("username", JS.Str "doctor1");
            ("role", JS.Str "doctor")]).
  - reflexivity.
  - reflexivity.
  - simpl. discriminate.
Defined.

(** ** The upload page *)

Lemma upload_failed_sent thrown s w : sent (snd (Upload.upload_failed thrown s w)) = sent w.
Proof. unfold Upload.upload_failed. simpl. by destruct (JS.truthy _). Qed.

(** What [handleUpload] sends: the upload, then possibly the prediction
    request, each perhaps more than once on redirects. *)
Lemma handleUpload_sent s w f :
  Upload.file s = Some f ->
  exists ups preds imageId,
    sent (snd (Upload.handleUpload s w)) = sent w ++ ups ++ preds /\
    Forall (same_call (upload_cfg f)) ups /\
    Forall (same_call (prediction_cfg imageId (Upload.imageType s))) preds.
Proof.
  intros Hf. unfold Upload.handleUpload. rewrite Hf.
  unfold Api.imageService.uploadImage, Api.post. fold (upload_cfg f).
  set (w1 := toast _ w).
  destruct (api_sent (upload_cfg f) w1) as (ups & _ & E & _ & F).
  destruct (Api.api (upload_cfg f) w1) as [w2 [imageResponse|thrown|]]; simpl in E.
  - destruct (JS.nullish (data imageResponse)).
    + exists ups, [], JS.Undefined. rewrite upload_failed_sent, app_nil_r. by repeat split.
    + unfold Api.predictionService.createPrediction, Api.post. simpl Upload.imageType.
      set (imageId := JS.get (data imageResponse) "id").
      fold (prediction_cfg imageId (Upload.imageType s)).
      set (w3 := toast _ (toast _ (toast _ w2))).
      destruct (api_sent (prediction_cfg imageId (Upload.imageType s)) w3)
        as (preds & _ & E' & _ & F').
      assert (E3 : sent w3 = sent w ++ ups) by exact E.
      rewrite E3, <- app_assoc in E'.
      exists ups, preds, imageId. split; [|by split].
      destruct (Api.api (prediction_cfg imageId (Upload.imageType s)) w3)
        as [w4 [predictionResponse|thrown|]]; simpl in E'.
      * destruct (JS.nullish (data predictionResponse)).
        -- rewrite upload_failed_sent. exact E'.
        -- exact E'.
      * rewrite upload_failed_sent. exact E'.
      * exact E'.
  - exists ups, [], JS.Undefined. rewrite upload_failed_sent, app_nil_r. by repeat split.
  - exists ups, [], JS.Undefined. simpl. rewrite app_nil_r. by repeat split.
Qed.

Lemma getModelNameForImageType_cases type :
  (type = "brain-mri" /\ Upload.getModelNameForImageType type = "brain-mri") \/
  (type <> "brain-mri" /\ Upload.getModelNameForImageType type = "chest-xray").
Proof.
  unfold Upload.getModelNameForImageType.
  destruct (String.eqb_spec type "x-ray") as [->|_]; [right; by split|].
  destruct (String.eqb_spec type "brain-mri") as [->|N]; [left|right]; by split.
Qed.

(** C10: the prediction request that [handleUpload] sends names the model
    'brain-mri' exactly when the selected image type is 'brain-mri', and
    'chest-xray' for every other type; of the five types that the page
    offers only 'brain-mri' goes to the 'brain-mri' model. *)
Theorem prediction_request_names_the_model s w r :
  In r (issued w (snd (Upload.handleUpload s w))) ->
  url r = "/predictions/" ->
  (exists imageId m,
     req_data r = JsonBody (JS.Obj [("image_id", imageId); ("model_name", JS.Str m)]) /\
     m = Upload.getModelNameForImageType (Upload.imageType s) /\
     (m = "brain-mri" <-> Upload.imageType s = "brain-mri") /\
     (Upload.imageType s <> "brain-mri" -> m = "chest-xray")) /\
  map Upload.getModelNameForImageType Upload.imageType_options =
    ["chest-xray"; "chest-xray"; "chest-xray"; "brain-mri"; "chest-xray"].
Proof.
  intros Hin Hurl. split; [|reflexivity].
  destruct (Upload.file s) as [f|] eqn:Hf.
  - destruct (handleUpload_sent s w f Hf) as (ups & preds & imageId & E & Fu & Fp).
    rewrite (issued_app _ _ _ E) in Hin. apply in_app_or in Hin as [Hin|Hin].
    + rewrite Forall_forall in Fu. destruct (Fu r) as (_ & Hu & _).
      { by apply list_elem_of_In. }
      rewrite Hurl in Hu. discriminate.
    + rewrite Forall_forall in Fp. destruct (Fp r) as (_ & _ & _ & Hd).
      { by apply list_elem_of_In. }
      exists imageId, (Upload.getModelNameForImageType (Upload.imageType s)).
      split; [exact Hd|]. split; [reflexivity|].
      destruct (getModelNameForImageType_cases (Upload.imageType s)) as [[H1 H2]|[H1 H2]];
        rewrite H2; split; done.
  - unfold Upload.handleUpload in Hin. rewrite Hf in Hin.
    change (In r (issued w w)) in Hin. rewrite issued_refl in Hin. destruct Hin.
Qed.

Lemma prediction_request_names_the_model_witness :
  let r := Api.request_interceptor obliging_world
             (prediction_cfg (JS.Num (JS.Int 12)) "brain-mri") in
  (exists imageId m,
     req_data r = JsonBody (JS.Obj [("image_id", imageId); ("model_name", JS.Str m)]) /\
     m = Upload.getModelNameForImageType (Upload.imageType ready_to_upload) /\
     (m = "brain-mri" <-> Upload.imageType ready_to_upload = "brain-mri") /\
     (Upload.imageType ready_to_upload <> "brain-mri" -> m = "chest-xray")) /\
  map Upload.getModelNameForImageType Upload.imageType_options =
    ["chest-xray"; "chest-xray"; "chest-xray"; "brain-mri"; "chest-xray"].
Proof.
  apply (prediction_request_names_the_model ready_to_upload obliging_world
           (Api.request_interceptor obliging_world
              (prediction_cfg (JS.Num (JS.Int 12)) "brain-mri"))).
  - right. left. reflexivity.
  - reflexivity.
Defined.

Lemma step_keeps_ok e s w :
  kept_file_ok s ->
  kept_file_ok (fst (Upload.step e (s, w))) /\
  exists new, sent (snd (Upload.step e (s, w))) = sent w ++ new /\ Forall carries_ok new.
Proof.
  intros Hok. destruct e as [fs u| |v|]; simpl.
  - unfold Upload.onDrop. destruct fs as [|selectedFile fs].
    { split; [done|]. exists []. by rewrite app_nil_r. }
    destruct (negb (String.prefix "image/" (JS.type selectedFile))); simpl.
    { split; [done|]. exists []. by rewrite app_nil_r. }
    destruct (JS.size selectedFile >? 16 * 1024 * 1024) eqn:Hsz; simpl.
    { split; [done|]. exists []. by rewrite app_nil_r. }
    split; [|exists []; by rewrite app_nil_r].
    intros f [= <-]. lia.
  - split; [by intros f [=]|]. exists []. by rewrite app_nil_r.
  - split; [exact Hok|]. exists []. by rewrite app_nil_r.
  - destruct (negb (bool_decide (is_Some (Upload.file s))) || Upload.isUploading s).
    { split; [done|]. exists []. by rewrite app_nil_r. }
    destruct (Upload.file s) as [f|] eqn:Hf.
    + split.
      * unfold Upload.handleUpload. rewrite Hf.
        assert (Hu : forall b p, kept_file_ok (Upload.uploading b p s)).
        { intros b p g Hg. apply Hok. exact Hg. }
        assert (Hfail : forall thrown b p w0,
                  kept_file_ok (fst (Upload.upload_failed thrown (Upload.uploading b p s) w0))).
        { intros thrown b p w0 g Hg. apply Hok. exact Hg. }
        destruct (Api.imageService.uploadImage _ _) as [w2 [imageResponse|thrown|]];
          [|apply Hfail|apply Hu].
        destruct (JS.nullish _); [apply Hfail|].
        destruct (Api.predictionService.createPrediction _ _)
          as [w4 [predictionResponse|thrown|]]; [|apply Hfail|apply Hu].
        destruct (JS.nullish _); [apply Hfail|]. intros g Hg. apply Hok. exact Hg.
      * destruct (handleUpload_sent s w f Hf) as (ups & preds & imageId & E & Fu & Fp).
        exists (ups ++ preds). split; [exact E|]. apply Forall_app. split.
        -- eapply Forall_impl; [exact Fu|]. intros r (_ & _ & _ & Hd) g Hg.
           rewrite Hd in Hg. injection Hg as <-. by apply Hok.
        -- eapply Forall_impl; [exact Fp|]. intros r (_ & _ & _ & Hd) g Hg.
           rewrite Hd in Hg. discriminate.
    + unfold Upload.handleUpload. rewrite Hf. simpl.
      split; [exact Hok|]. exists []. by rewrite app_nil_r.
Qed.

Lemma run_keeps_ok es : forall s w,
  kept_file_ok s ->
  exists new, sent (snd (Upload.run es (s, w))) = sent w ++ new /\ Forall carries_ok new.
Proof.
  induction es as [|e es IH]; intros s w Hok.
  - exists []. by rewrite app_nil_r.
  - change (Upload.run (e :: es) (s, w)) with (Upload.run es (Upload.step e (s, w))).
    destruct (step_keeps_ok e s w Hok) as (Hok' & new1 & E1 & F1).
    destruct (Upload.step e (s, w)) as [s1 w1].
    destruct (IH s1 w1 Hok') as (new2 & E2 & F2).
    exists (new1 ++ new2). split.
    + rewrite E2. change (sent w1 = sent w ++ new1) in E1. by rewrite E1, app_assoc.
    + apply Forall_app. by split.
Qed.

(** C1: [onDrop] turns a file of more than 16*1024*1024 bytes down: it
    returns with the page state as it was (the selected file and the preview
    included) and one more error toast; and whatever the user does on the
    page from its first render on, no upload request ever carries that
    file. *)
Theorem oversized_file_is_rejected f :
  JS.size f > 16 * 1024 * 1024 ->
  (forall fs previewUrl s w,
     exists msg, Upload.onDrop (f :: fs) previewUrl s w
                 = Upload.Returned s (toast (ToastError msg) w)) /\
  (forall es w r,
     In r (issued w (snd (Upload.run es (Upload.initial, w)))) ->
     req_data r <> FileBody f).
Proof.
  intros Hbig. split.
  - intros fs u s w. unfold Upload.onDrop.
    destruct (negb (String.prefix "image/" (JS.type f))); [eauto|].
    assert ((JS.size f >? 16 * 1024 * 1024) = true) as ->; [|eauto].
    lia.
  - intros es w r Hin Hr.
    destruct (run_keeps_ok es Upload.initial w) as (new & E & F).
    { by intros g [=]. }
    rewrite (issued_app _ _ _ E) in Hin.
    rewrite Forall_forall in F. apply list_elem_of_In, F in Hin.
    specialize (Hin f Hr). lia.
Qed.

Lemma oversized_file_is_rejected_witness :
  (forall fs previewUrl s w,
     exists msg, Upload.onDrop (huge_scan :: fs) previewUrl s w
                 = Upload.Returned s (toast (ToastError msg) w)) /\
  (forall es w r,
     In r (issued w (snd (Upload.run es (Upload.initial, w)))) ->
     req_data r <> FileBody huge_scan).
Proof.
  apply (oversized_file_is_rejected huge_scan). reflexivity.
Defined.

(** A file within the limit does get uploaded, so the statement above is
    about the limit and not about a page that uploads nothing. *)
Example small_file_is_uploaded :
  map req_data
      (issued obliging_world
         (snd (Upload.run [Upload.Drop [brain_scan] "blob:1"; Upload.ClickUpload]
                          (Upload.initial, obliging_world))))
  = [FileBody brain_scan;
     JsonBody (JS.Obj [("image_id", JS.Num (JS.Int 12)); ("model_name", JS.Str "chest-xray")])].
Proof. reflexivity. Qed.

(** ** The feedback form *)

Lemma lookup_set_prop k k' v props :
  JS.lookup_prop k (JS.set_prop k' v props) =
    if String.eqb k k' then v else JS.lookup_prop k props.
Proof.
  induction props as [|[k0 v0] rest IH]; simpl.
  - by destruct (String.eqb k k').
  - destruct (String.eqb_spec k' k0) as [->|N]; simpl.
    + by destruct (String.eqb k k0).
    + destruct (String.eqb_spec k k0) as [->|N'].
      * destruct (String.eqb_spec k0 k') as [E|_]; [by symmetry in E|done].
      * exact IH.
Qed.

Lemma parseInt_rating_option v :
  In v PredictionDetail.rating_options ->
  exists z, JS.parseInt v = JS.Int z /\ 0 <= z <= 5.
Proof.
  simpl. intros [<-|[<-|[<-|[<-|[<-|[<-|[]]]]]]]; eexists; (split; [vm_compute; reflexivity|lia]).
Qed.

Lemma handleFeedbackChange_in_range name value s :
  (name = "rating" -> In value PredictionDetail.rating_options) ->
  rating_in_range s ->
  rating_in_range (PredictionDetail.handleFeedbackChange name value s).
Proof.
  intros Hv (z & Hz & Hr). unfold rating_in_range. simpl. rewrite lookup_set_prop.
  destruct (String.eqb_spec name "rating") as [->|N].
  - destruct (parseInt_rating_option value (Hv eq_refl)) as (z' & -> & Hr'). eauto.
  - destruct (String.eqb_spec "rating" name) as [E|_]; [by symmetry in E|eauto].
Qed.

Lemma handleSubmitFeedback_effect s w :
  PredictionDetail.feedbackData (fst (PredictionDetail.handleSubmitFeedback s w))
    = PredictionDetail.feedbackData s /\
  sent (snd (PredictionDetail.handleSubmitFeedback s w))
    = sent (fst (Api.api (Api.mkRequest POST "/feedback/"
                            (JsonBody (JS.Obj (PredictionDetail.feedbackData s))) ∅) w)).
Proof.
  unfold PredictionDetail.handleSubmitFeedback, PredictionDetail.submitFeedbackMutation,
    ReactQuery.mutate, Api.feedbackService.createFeedback, Api.post.
  by destruct (Api.api _ w) as [w1 [resp|e|]].
Qed.

Lemma feedback_step_keeps_range e s w :
  PredictionDetail.from_form e ->
  rating_in_range s ->
  rating_in_range (fst (PredictionDetail.step e (s, w))) /\
  exists new, sent (snd (PredictionDetail.step e (s, w))) = sent w ++ new /\
              Forall rated_submission new.
Proof.
  intros He Hs.
  assert (Hnone : exists new : list Request, sent w = sent w ++ new /\ Forall rated_submission new).
  { exists []. by rewrite app_nil_r. }
  destruct e as [v|v|v|]; simpl.
  - split; [|exact Hnone]. apply handleFeedbackChange_in_range; [by intros _|done].
  - split; [|exact Hnone]. apply handleFeedbackChange_in_range; [discriminate|done].
  - split; [|exact Hnone]. apply handleFeedbackChange_in_range; [discriminate|done].
  - destruct (PredictionDetail.submit_disabled s) eqn:Hd; [by split|].
    destruct (handleSubmitFeedback_effect s w) as [Hfd Hsent].
    split.
    + destruct Hs as (z & Hz & Hr). exists z. by rewrite Hfd.
    + rewrite Hsent.
      destruct (api_sent (Api.mkRequest POST "/feedback/"
                  (JsonBody (JS.Obj (PredictionDetail.feedbackData s))) ∅) w)
        as (new & _ & E & _ & F).
      exists new. split; [exact E|]. eapply Forall_impl; [exact F|].
      intros r (Hm & Hu & _ & Hdata). split; [exact Hm|]. split; [exact Hu|].
      destruct Hs as (z & Hz & Hr).
      exists (PredictionDetail.feedbackData s), z. split; [exact Hdata|].
      split; [exact Hz|].
      apply orb_false_iff in Hd as [_ Hd]. unfold PredictionDetail.rating_is_zero in Hd.
      simpl in Hd. rewrite Hz in Hd. simpl in Hd. lia.
Qed.

Lemma feedback_run_keeps_range es : forall s w,
  Forall PredictionDetail.from_form es ->
  rating_in_range s ->
  exists new, sent (snd (PredictionDetail.run es (s, w))) = sent w ++ new /\
              Forall rated_submission new.
Proof.
  induction es as [|e es IH]; intros s w Hes Hs.
  - exists []. by rewrite app_nil_r.
  - apply Forall_cons in Hes as [He Hes].
    change (PredictionDetail.run (e :: es) (s, w))
      with (PredictionDetail.run es (PredictionDetail.step e (s, w))).
    destruct (feedback_step_keeps_range e s w He Hs) as (Hs' & new1 & E1 & F1).
    destruct (PredictionDetail.step e (s, w)) as [s1 w1].
    destruct (IH s1 w1 Hes Hs') as (new2 & E2 & F2).
    exists (new1 ++ new2). split.
    + rewrite E2. change (sent w1 = sent w ++ new1) in E1. by rewrite E1, app_assoc.
    + apply Forall_app. by split.
Qed.

(** C8: whatever the user does with the feedback form of a prediction-detail
    page, every request that the page sends is a POST of feedback whose
    rating is an integer from 1 to 5.  The rating is [parseInt] of the value
    of the [select], whose options parse to 0, 1, 2, 3, 4 and 5, and the
    submit button is disabled while the rating is 0. *)
Theorem submitted_rating_is_between_1_and_5 id es w r :
  Forall PredictionDetail.from_form es ->
  In r (issued w (snd (PredictionDetail.run es (PredictionDetail.initial id, w)))) ->
  rated_submission r /\
  map JS.parseInt PredictionDetail.rating_options = map JS.Int [0; 1; 2; 3; 4; 5] /\
  PredictionDetail.submit_disabled (PredictionDetail.initial id) = true.
Proof.
  intros Hes Hin. split; [|split; reflexivity].
  destruct (feedback_run_keeps_range es (PredictionDetail.initial id) w Hes)
    as (new & E & F).
  { exists 0. split; [reflexivity|lia]. }
  rewrite (issued_app _ _ _ E) in Hin.
  rewrite Forall_forall in F. by apply F, list_elem_of_In.
Qed.

Lemma submitted_rating_is_between_1_and_5_witness :
  rated_submission
    (Api.request_interceptor reviewing_world
       (Api.mkRequest POST "/feedback/"
          (JsonBody (JS.Obj [("diagnosis_id", JS.Num (JS.Int 7));
                             ("feedback_text", JS.Str "agree");
                             ("override_diagnosis", JS.Str "");
                             ("rating", JS.Num (JS.Int 4))])) ∅)) /\
  map JS.parseInt PredictionDetail.rating_options = map JS.Int [0; 1; 2; 3; 4; 5] /\
  PredictionDetail.submit_disabled (PredictionDetail.initial "7") = true.
Proof.
  apply (submitted_rating_is_between_1_and_5 "7" four_stars reviewing_world).
  - constructor; [do 4 right; left; reflexivity|].
    constructor; [exact I|]. constructor; [exact I|constructor].
  - left. reflexivity.
Defined.

(** ** The predictions tab *)

Lemma compareFn_le a b :
  Qle_bool (PredictionDetail.compareFn a b) 0 = true <-> conf_ge a b.
Proof.
  rewrite Qle_bool_iff. unfold PredictionDetail.compareFn, conf_ge.
  split; intros H; lra.
Qed.

Lemma compareFn_gt a b :
  Qle_bool (PredictionDetail.compareFn a b) 0 = false -> conf_ge b a.
Proof.
  intros H. unfold conf_ge.
  destruct (Qlt_le_dec (snd a) (snd b)) as [L|L]; [by apply Qlt_le_weak|].
  assert (Qle_bool (PredictionDetail.compareFn a b) 0 = true); [|congruence].
  by apply compareFn_le.
Qed.

Lemma insert_sorted_perm {A} (cmp : A -> A -> Q) x l :
  Permutation (x :: l) (PredictionDetail.insert_sorted cmp x l).
Proof.
  induction l as [|y l IH]; simpl; [reflexivity|].
  destruct (Qle_bool (cmp x y) 0); [reflexivity|].
  rewrite perm_swap. by constructor.
Qed.

Lemma sort_perm {A} (cmp : A -> A -> Q) l : Permutation l (PredictionDetail.sort cmp l).
Proof.
  induction l as [|x l IH]; simpl; [constructor|].
  etransitivity; [|apply insert_sorted_perm]. by constructor.
Qed.

Lemma insert_sorted_hd x y l :
  conf_ge y x -> HdRel conf_ge y l ->
  HdRel conf_ge y (PredictionDetail.insert_sorted PredictionDetail.compareFn x l).
Proof.
  intros Hyx Hl. destruct l as [|z l]; simpl; [by constructor|].
  destruct (Qle_bool _ _); constructor; [done|]. by inversion Hl.
Qed.

Lemma insert_sorted_sorted x l :
  Sorted conf_ge l ->
  Sorted conf_ge (PredictionDetail.insert_sorted PredictionDetail.compareFn x l).
Proof.
  induction 1 as [|y l Hs IH Hhd]; simpl; [by repeat constructor|].
  destruct (Qle_bool (PredictionDetail.compareFn x y) 0) eqn:E.
  - constructor; [by constructor|]. constructor. by apply compareFn_le.
  - constructor; [exact IH|]. apply insert_sorted_hd; [|exact Hhd].
    by apply compareFn_gt.
Qed.

Lemma sort_sorted l : Sorted conf_ge (PredictionDetail.sort PredictionDetail.compareFn l).
Proof.
  induction l as [|x l IH]; simpl; [constructor|]. by apply insert_sorted_sorted.
Qed.

Lemma sorted_rows l : Sorted conf_ge l -> Sorted row_ge (map to_row l).
Proof.
  induction 1 as [|y l Hs IH Hhd]; simpl; constructor; [exact IH|].
  destruct Hhd; simpl; by constructor.
Qed.

(** C9: the rows of the predictions tab are the entries of the mapping,
    each exactly once, and every row has a confidence at least as large as
    the row after it. *)
Theorem sortedPredictions_sorted_permutation entries :
  let rows := PredictionDetail.sortedPredictions
                (Some {| PredictionDetail.prediction_data := Some entries |}) in
  Permutation (map to_row entries) rows /\ Sorted row_ge rows.
Proof.
  simpl. split.
  - apply Permutation_map, sort_perm.
  - apply sorted_rows, sort_sorted.
Qed.

Example sortedPredictions_chest :
  map PredictionDetail.label
    (PredictionDetail.sortedPredictions
       (Some {| PredictionDetail.prediction_data :=
                  Some [("Pneumonia", 0.12%Q); ("Tuberculosis", 0.03%Q);
                        ("COVID-19", 0.8%Q); ("Normal", 0.05%Q)] |}))
  = ["COVID-19"; "Pneumonia"; "Normal"; "Tuberculosis"].
Proof. reflexivity. Qed.

(** ** Mutations and the query cache *)

Lemma invalidateQueries_lookup filter w k q :
  queries (ReactQuery.invalidateQueries filter w) !! k = Some q ->
  filter `prefix_of` k -> isInvalidated q = true.
Proof.
  unfold ReactQuery.invalidateQueries. simpl. rewrite map_lookup_imap.
  destruct (queries w !! k) as [q0|]; simpl; [|discriminate].
  unfold ReactQuery.invalidate. intros [= <-] Hp.
  by rewrite bool_decide_eq_true_2.
Qed.

Lemma invalidateQueries_not_fresh w :
  ReactQuery.is_fresh ["users"] (ReactQuery.invalidateQueries ["users"] w) = false.
Proof.
  unfold ReactQuery.is_fresh.
  destruct (queries (ReactQuery.invalidateQueries ["users"] w) !! ["users"]) as [q|] eqn:E;
    [|reflexivity].
  by rewrite (invalidateQueries_lookup _ _ _ _ E).
Qed.

Lemma run_mutation_fulfilled m s w resp :
  snd (mutation_call m w) = Fulfilled resp ->
  exists w1, snd (run_mutation m s w) = ReactQuery.invalidateQueries ["users"] w1 /\
             network w1 = network (fst (mutation_call m w)) /\
             sent w1 = sent (fst (mutation_call m w)).
Proof.
  destruct m as [userData|id d|id]; simpl; unfold UserManagement.addUserMutation,
    UserManagement.updateUserMutation, UserManagement.deleteUserMutation, ReactQuery.mutate;
    [ destruct (Api.userService.createUser _ w) as [w1 p]
    | destruct (Api.userService.updateUser _ _ w) as [w1 p]
    | destruct (Api.userService.deleteUser _ w) as [w1 p] ];
    simpl; intros ->; eexists; (split; [reflexivity|by split]).
Qed.

(** A 2xx answer to the users query. *)
Lemma getUsers_fulfilled w st body rest :
  network w = Answer st body :: rest ->
  validateStatus st = true ->
  exists w1 resp, Api.userService.getUsers None w = (w1, Fulfilled resp) /\
                  data resp = body /\ issued w w1 <> [].
Proof.
  intros Hnet Hst.
  unfold Api.userService.getUsers, Api.get, Api.api. rewrite Hnet. simpl. rewrite Hst.
  unfold Api.on_response. simpl.
  assert (Api.is_redirect st = false) as ->.
  { unfold Api.is_redirect, validateStatus in *. lia. }
  do 2 eexists. split; [reflexivity|]. split; [reflexivity|].
  erewrite issued_app; [|reflexivity]. discriminate.
Qed.

(** C6, amended: each of the three user mutations, when its request
    succeeds, marks every cached query under the key 'users' as invalid; the
    users query of an admin then no longer counts as fresh, and its next
    read asks the server again and shows what the server answers. *)
Theorem user_mutations_invalidate_users m s w resp :
  snd (mutation_call m w) = Fulfilled resp ->
  let w' := snd (run_mutation m s w) in
  (forall k q, queries w' !! k = Some q -> ["users"] `prefix_of` k ->
               isInvalidated q = true) /\
  ReactQuery.is_fresh ["users"] w' = false /\
  (forall user st body rest,
     UserManagement.users_enabled user = true ->
     network w' = Answer st body :: rest ->
     validateStatus st = true ->
     snd (UserManagement.users user w') = body /\
     issued w' (fst (UserManagement.users user w')) <> []).
Proof.
  intros Hok. destruct (run_mutation_fulfilled m s w resp Hok) as (w1 & E & _ & _).
  cbv zeta. rewrite E. split; [|split].
  - intros k q. apply invalidateQueries_lookup.
  - apply invalidateQueries_not_fresh.
  - intros user st body rest Hen Hnet Hst.
    unfold UserManagement.users, ReactQuery.useQuery.
    rewrite Hen, invalidateQueries_not_fresh. simpl.
    destruct (getUsers_fulfilled _ st body rest Hnet Hst) as (w2 & r & -> & Hd & Hi).
    simpl. split; [exact Hd|]. exact Hi.
Qed.

Lemma user_mutations_invalidate_users_witness :
  let w' := snd (run_mutation (DeleteUser (JS.Num (JS.Int 3)))
                   UserManagement.initial admin_world) in
  (forall k q, queries w' !! k = Some q -> ["users"] `prefix_of` k ->
               isInvalidated q = true) /\
  ReactQuery.is_fresh ["users"] w' = false /\
  (forall user st body rest,
     UserManagement.users_enabled user = true ->
     network w' = Answer st body :: rest ->
     validateStatus st = true ->
     snd (UserManagement.users user w') = body /\
     issued w' (fst (UserManagement.users user w')) <> []).
Proof.
  apply (user_mutations_invalidate_users (DeleteUser (JS.Num (JS.Int 3)))
           UserManagement.initial admin_world
           {| status := 204; data := JS.Null;
              config := Api.request_interceptor admin_world
                          (Api.mkRequest DELETE "/users/3" NoBody ∅) |}).
  reflexivity.
Defined.

(** After the deletion the page shows the list that the server now gives. *)
Example users_after_delete :
  let w' := snd (run_mutation (DeleteUser (JS.Num (JS.Int 3)))
                   UserManagement.initial admin_world) in
  ReactQuery.cached ["users"] admin_world
    = JS.Arr [JS.Obj [("id", JS.Num (JS.Int 1))]; JS.Obj [("id", JS.Num (JS.Int 3))]] /\
  snd (UserManagement.users admin w') = JS.Arr [JS.Obj [("id", JS.Num (JS.Int 1))]].
Proof. split; reflexivity. Qed.

(** C6, as stated, fails for the feedback submission: the submission
    succeeds (its success toast is shown), the cache is exactly as it was,
    the feedback query of the prediction still counts as fresh, and the
    next read of it is served from the cache: it sends nothing and still
    says that there is no feedback, although the server now has one to
    give. *)
Lemma feedback_submission_invalidates_nothing :
  let after := snd (PredictionDetail.run four_stars
                      (PredictionDetail.initial "7", reviewing_world)) in
  toasts after = [ToastSuccess "Feedback submitted successfully"] /\
  queries after = queries reviewing_world /\
  ReactQuery.is_fresh ["feedback"; "7"] after = true /\
  PredictionDetail.feedback "7" after = (after, JS.Null) /\
  network after = [Answer 200 (JS.Obj [("id", JS.Num (JS.Int 1));
                                       ("rating", JS.Num (JS.Int 4))])].
Proof. cbv zeta. repeat split; reflexivity. Qed.

(** Neither mutation of the prediction-detail page touches the cache. *)
Lemma dispatch_queries net : forall w cfg,
  queries (fst (Api.dispatch net w cfg)) = queries w.
Proof.
  induction net as [|t rest IH]; intros w cfg; simpl; [reflexivity|].
  set (cfg' := Api.request_interceptor w cfg).
  set (w2 := set_network rest (log_request cfg' w)).
  destruct (settle cfg' t) as [resp|e].
  - unfold Api.on_response. destruct (Api.is_redirect _); [|reflexivity].
    exact (IH w2 (config resp)).
  - unfold Api.on_error. destruct (response e) as [r|]; [|reflexivity].
    destruct (status r =? 401); [reflexivity|].
    destruct (Api.is_redirect _); [|reflexivity]. exact (IH w2 (err_config e)).
Qed.

Lemma prediction_detail_mutations_leave_cache s w :
  queries (snd (PredictionDetail.handleSubmitFeedback s w)) = queries w /\
  queries (snd (PredictionDetail.handleGenerateReport s w)) = queries w.
Proof.
  unfold PredictionDetail.handleSubmitFeedback, PredictionDetail.submitFeedbackMutation,
    PredictionDetail.handleGenerateReport, PredictionDetail.generateReportMutation,
    ReactQuery.mutate, Api.feedbackService.createFeedback, Api.reportService.createReport,
    Api.post, Api.api.
  split.
  - pose proof (dispatch_queries (network w) w
      (Api.mkRequest POST "/feedback/" (JsonBody (JS.Obj (PredictionDetail.feedbackData s))) ∅))
      as H.
    by destruct (Api.dispatch _ _ _) as [w1 [resp|e|]].
  - pose proof (dispatch_queries (network w) w
      (Api.mkRequest POST "/reports/" (JsonBody (JS.Obj (PredictionDetail.reportData s))) ∅))
      as H.
    by destruct (Api.dispatch _ _ _) as [w1 [resp|e|]].
Qed.

(** ** The endpoints of the service layer *)

Lemma perform_sent stringify c w :
  sent (Endpoints.perform stringify c w) =
    match call_cfg c with
    | Some cfg => sent (fst (Api.api cfg w))
    | None => sent w
    end.
Proof.
  destruct c; try reflexivity; simpl.
  - unfold Api.authService.login, Api.post.
    destruct (Api.api _ w) as [w1 [resp|e|]]; try reflexivity.
    destruct (JS.nullish _); [reflexivity|]. by destruct (JS.truthy _).
  - unfold Api.authService.verifyToken, Api.post.
    by destruct (Api.api _ w) as [w1 [resp|e|]].
Qed.

Lemma targets_same_call table cfg r :
  same_call cfg r -> Endpoints.targets table r = Endpoints.targets table cfg.
Proof. intros (Hm & Hu & _). unfold Endpoints.targets. by rewrite Hm, Hu. Qed.

Lemma path_of_no_query s : Endpoints.has_char "?" s = false -> Endpoints.path_of s = s.
Proof.
  induction s as [|c s IH]; simpl; [done|].
  intros H. apply orb_false_iff in H as [-> H]. by rewrite IH.
Qed.

Lemma valid_id_segment id :
  Endpoints.valid_id id = true ->
  Endpoints.is_segment (Endpoints.path_of id) = true.
Proof.
  unfold Endpoints.valid_id. intros H. apply andb_true_iff in H as [Hs Hq].
  rewrite path_of_no_query; [exact Hs|]. by destruct (Endpoints.has_char "?" id).
Qed.

Lemma path_of_app p s :
  Endpoints.has_char "?" p = false ->
  Endpoints.path_of (p ++ s)%string = (p ++ Endpoints.path_of s)%string.
Proof.
  induction p as [|c p IH]; simpl; [done|].
  intros H. apply orb_false_iff in H as [-> H]. by rewrite IH.
Qed.

Lemma strip_prefix_app p s : Endpoints.strip_prefix p (p ++ s)%string = Some s.
Proof.
  induction p as [|c p IH]; simpl; [by destruct s|]. by rewrite Ascii.eqb_refl.
Qed.

(** A call that interpolates a valid id behind the prefix of an [{id}]
    entry of the table targets that entry. *)
Lemma targets_with_id table p ms m id d h :
  In (Endpoints.WithId p, ms) table ->
  existsb (Endpoints.method_eqb m) ms = true ->
  Endpoints.has_char "?" p = false ->
  Endpoints.valid_id id = true ->
  Endpoints.targets table (Api.mkRequest m (p ++ id)%string d h) = true.
Proof.
  intros Hin Hm Hp Hid. unfold Endpoints.targets. apply existsb_exists.
  exists (Endpoints.WithId p, ms). split; [exact Hin|]. simpl.
  rewrite path_of_app, strip_prefix_app, (valid_id_segment _ Hid); [|exact Hp].
  exact Hm.
Qed.

Lemma call_cfg_targets c cfg :
  (forall id, Endpoints.id_of c = Some id -> Endpoints.valid_id id = true) ->
  call_cfg c = Some cfg ->
  Endpoints.targets (Endpoints.listed ++ Endpoints.unlisted) cfg = true.
Proof.
  intros Hid Hc.
  destruct c; simpl in Hc; try discriminate; injection Hc as <-; try reflexivity;
    (eapply targets_with_id;
     [ simpl; repeat ((left; reflexivity) || right)
     | reflexivity | reflexivity | by apply Hid ]).
Qed.

(** C7, as stated, fails: feedback creation is POSTed to /feedback/, with
    no id in the path, which is none of the listed endpoints, and image
    uploads are POSTed to /images/upload, not to /images/. *)
Lemma service_layer_leaves_the_listed_endpoints :
  let stringify := fun _ : JS.Value => "" in
  let created := issued obliging_world
                   (Endpoints.perform stringify
                      (Endpoints.CreateFeedback (JsonBody JS.Null)) obliging_world) in
  let uploaded := issued obliging_world
                    (Endpoints.perform stringify
                       (Endpoints.UploadImage (FileBody brain_scan)) obliging_world) in
  map (fun r => (method r, url r)) created = [(POST, "/feedback/")] /\
  map (Endpoints.targets Endpoints.listed) created = [false] /\
  map (fun r => (method r, url r)) uploaded = [(POST, "/images/upload")] /\
  map (fun r => String.eqb (url r) "/images/") uploaded = [false].
Proof. cbv zeta. repeat split; reflexivity. Qed.

(** C7, amended: every request that a call of the service layer sends (with
    ids that are one path segment) targets an endpoint of the list, with a
    method of the list, or one of: POST /auth/verify-token, POST
    /images/upload, POST /feedback/, GET /reports/{id}, and GET, PUT or
    DELETE /users/{id}.  In particular image uploads are POSTed to
    /images/upload and feedback creation is POSTed to /feedback/. *)
Theorem service_requests_target_known_endpoints stringify c w r :
  (forall id, Endpoints.id_of c = Some id -> Endpoints.valid_id id = true) ->
  In r (issued w (Endpoints.perform stringify c w)) ->
  Endpoints.targets (Endpoints.listed ++ Endpoints.unlisted) r = true /\
  (forall d, c = Endpoints.UploadImage d -> method r = POST /\ url r = "/images/upload") /\
  (forall d, c = Endpoints.CreateFeedback d -> method r = POST /\ url r = "/feedback/").
Proof.
  intros Hid Hin.
  assert (Hcfg : exists cfg, call_cfg c = Some cfg /\ same_call cfg r).
  { pose proof (perform_sent stringify c w) as Hs.
    destruct (call_cfg c) as [cfg|].
    - destruct (api_sent cfg w) as (new & _ & E & _ & F).
      rewrite <- Hs in E. rewrite (issued_app _ _ _ E) in Hin.
      rewrite Forall_forall in F. exists cfg. split; [reflexivity|].
      by apply F, list_elem_of_In.
    - assert (E : sent (Endpoints.perform stringify c w) = sent w ++ [])
        by (by rewrite app_nil_r).
      rewrite (issued_app _ _ _ E) in Hin. destruct Hin. }
  destruct Hcfg as (cfg & Hc & Hsame). split; [|split].
  - rewrite (targets_same_call _ _ _ Hsame). by apply call_cfg_targets with c.
  - intros d ->. injection Hc as <-. by destruct Hsame as (-> & -> & _).
  - intros d ->. injection Hc as <-. by destruct Hsame as (-> & -> & _).
Qed.

Lemma service_requests_target_known_endpoints_witness :
  let r := Api.request_interceptor reviewing_world
             (Api.mkRequest PUT "/users/3" (JsonBody JS.Null) ∅) in
  Endpoints.targets (Endpoints.listed ++ Endpoints.unlisted) r = true /\
  (forall d, Endpoints.UpdateUser "3" (JsonBody JS.Null) = Endpoints.UploadImage d ->
             method r = POST /\ url r = "/images/upload") /\
  (forall d, Endpoints.UpdateUser "3" (JsonBody JS.Null) = Endpoints.CreateFeedback d ->
             method r = POST /\ url r = "/feedback/").
Proof.
  apply (service_requests_target_known_endpoints (fun _ => "")
           (Endpoints.UpdateUser "3" (JsonBody JS.Null)) reviewing_world).
  - intros id [= <-]. reflexivity.
  - left. reflexivity.
Defined.

(** * Further properties of the code *)

(** ** The api client *)

Lemma not_redirect_settles t rest w cfg :
  is_redirect_answer t = false ->
  exists w3 p, Api.dispatch (t :: rest) w cfg = (w3, p) /\ p <> Pending /\
               network w3 = rest /\
               sent w3 = sent w ++ [Api.request_interceptor w cfg].
Proof.
  intros H. simpl. set (cfg' := Api.request_interceptor w cfg).
  destruct t as [st body|]; simpl in *.
  - destruct (validateStatus st).
    + unfold Api.on_response. simpl. rewrite H. eauto 10.
    + unfold Api.on_error. simpl. rewrite H.
      destruct (st =? 401); eauto 10.
  - unfold Api.on_error. simpl. eauto 10.
Qed.

Lemma dispatch_count net : forall w cfg,
  exists new,
    sent (fst (Api.dispatch net w cfg)) = sent w ++ new /\
    length new = S (leading_redirects net) /\
    network (fst (Api.dispatch net w cfg)) = drop (S (leading_redirects net)) net /\
    (snd (Api.dispatch net w cfg) = Pending <-> leading_redirects net = length net).
Proof.
  induction net as [|t rest IH]; intros w cfg.
  - exists [Api.request_interceptor w cfg]. by repeat split.
  - simpl leading_redirects. destruct (is_redirect_answer t) eqn:Ht.
    + rewrite (dispatch_redirect _ _ _ _ Ht).
      set (cfg' := Api.request_interceptor w cfg).
      destruct (IH (set_network rest (log_request cfg' w)) cfg') as (new & E & L & N & P).
      exists (cfg' :: new). split; [|split; [|split]].
      * rewrite E. simpl. by rewrite <- app_assoc.
      * simpl. by rewrite L.
      * exact N.
      * rewrite P. simpl. lia.
    + destruct (not_redirect_settles t rest w cfg Ht) as (w3 & p & -> & Hp & Hn & Hs).
      exists [Api.request_interceptor w cfg]. simpl.
      split; [exact Hs|]. split; [reflexivity|]. split; [by rewrite drop_0|].
      split; [done|discriminate].
Qed.

(** X1: the client sends a request once, plus once more for every redirect
    answer (307 or 308) that it gets in a row; it consumes exactly those
    answers and the one that follows them, and its promise stays pending
    exactly when the network has nothing but redirects to say: redirects
    are followed without any bound. *)
Theorem api_sends_once_per_redirect_plus_one cfg w :
  length (issued w (fst (Api.api cfg w))) = S (leading_redirects (network w)) /\
  network (fst (Api.api cfg w)) = drop (S (leading_redirects (network w))) (network w) /\
  (snd (Api.api cfg w) = Pending <-> leading_redirects (network w) = length (network w)).
Proof.
  unfold Api.api. destruct (dispatch_count (network w) w cfg) as (new & E & L & N & P).
  rewrite (issued_app _ _ _ E). split; [exact L|]. split; [exact N|exact P].
Qed.

Lemma request_interceptor_idem w w' cfg :
  localStorage w' = localStorage w ->
  Api.request_interceptor w' (Api.request_interceptor w cfg) = Api.request_interceptor w cfg.
Proof.
  intros E. unfold Api.request_interceptor, getItem_truthy. rewrite E.
  destruct (localStorage w !! "token") as [v|]; [|reflexivity].
  destruct (String.eqb v ""); [reflexivity|]. simpl. by rewrite insert_insert_eq.
Qed.

Lemma dispatch_sent_exact net : forall w cfg,
  exists new, sent (fst (Api.dispatch net w cfg)) = sent w ++ new /\
              Forall (fun r => r = Api.request_interceptor w cfg) new.
Proof.
  induction net as [|t rest IH]; intros w cfg.
  - exists [Api.request_interceptor w cfg]. split; [reflexivity|]. by repeat constructor.
  - destruct (is_redirect_answer t) eqn:Ht.
    + rewrite (dispatch_redirect _ _ _ _ Ht).
      set (cfg' := Api.request_interceptor w cfg).
      set (w2 := set_network rest (log_request cfg' w)).
      destruct (IH w2 cfg') as (new & E & F).
      exists (cfg' :: new). split.
      * rewrite E. simpl. by rewrite <- app_assoc.
      * constructor; [reflexivity|]. eapply Forall_impl; [exact F|].
        intros r ->. by apply request_interceptor_idem.
    + destruct (not_redirect_settles t rest w cfg Ht) as (w3 & p & -> & _ & _ & Hs).
      exists [Api.request_interceptor w cfg]. split; [exact Hs|]. by repeat constructor.
Qed.

(** X2: every request that leaves the api client, the re-issued ones
    included, is the configuration of the call as the request interceptor
    completes it at the time of the call: with [Authorization: Bearer] and
    the stored token when a non-empty token is stored, and with the headers
    of the call untouched when there is none. *)
Theorem api_requests_carry_the_stored_token cfg w r :
  In r (issued w (fst (Api.api cfg w))) ->
  r = Api.request_interceptor w cfg /\
  (forall tok, localStorage w !! "token" = Some tok -> tok <> "" ->
     headers r !! "Authorization" = Some ("Bearer " ++ tok)%string) /\
  (localStorage w !! "token" = None \/ localStorage w !! "token" = Some "" ->
     headers r = headers cfg).
Proof.
  intros Hin. unfold Api.api in Hin.
  destruct (dispatch_sent_exact (network w) w cfg) as (new & E & F).
  rewrite (issued_app _ _ _ E) in Hin.
  rewrite Forall_forall in F. apply list_elem_of_In, F in Hin. subst r.
  split; [reflexivity|]. unfold Api.request_interceptor, getItem_truthy. split.
  - intros tok -> Hne. apply String.eqb_neq in Hne. rewrite Hne. simpl.
    apply lookup_insert_eq.
  - intros [-> | ->]; reflexivity.
Qed.

Lemma api_requests_carry_the_stored_token_witness :
  let cfg := Api.mkRequest GET "/predictions/7" NoBody ∅ in
  let r := Api.request_interceptor expired_world cfg in
  r = Api.request_interceptor expired_world cfg /\
  (forall tok, localStorage expired_world !! "token" = Some tok -> tok <> "" ->
     headers r !! "Authorization" = Some ("Bearer " ++ tok)%string) /\
  (localStorage expired_world !! "token" = None \/
   localStorage expired_world !! "token" = Some "" ->
     headers r = headers cfg).
Proof.
  apply (api_requests_carry_the_stored_token
           (Api.mkRequest GET "/predictions/7" NoBody ∅) expired_world).
  left. reflexivity.
Defined.

Lemma dispatch_browser net : forall w cfg,
  common_headers (fst (Api.dispatch net w cfg)) = common_headers w /\
  toasts (fst (Api.dispatch net w cfg)) = toasts w /\
  ((localStorage (fst (Api.dispatch net w cfg)) = localStorage w /\
    location (fst (Api.dispatch net w cfg)) = location w) \/
   (exists e r, snd (Api.dispatch net w cfg) = Rejected (AxiosError e) /\
                response e = Some r /\ status r = 401 /\
                localStorage (fst (Api.dispatch net w cfg)) = delete "token" (localStorage w) /\
                location (fst (Api.dispatch net w cfg)) = "/login")).
Proof.
  induction net as [|t rest IH]; intros w cfg.
  - simpl. auto.
  - destruct (is_redirect_answer t) eqn:Ht.
    + rewrite (dispatch_redirect _ _ _ _ Ht).
      exact (IH (set_network rest (log_request (Api.request_interceptor w cfg) w))
                (Api.request_interceptor w cfg)).
    + simpl. set (cfg' := Api.request_interceptor w cfg).
      destruct t as [st body|]; simpl in *.
      * destruct (validateStatus st).
        -- unfold Api.on_response. simpl. rewrite Ht. simpl. auto.
        -- unfold Api.on_error. simpl. rewrite Ht.
           destruct (st =? 401) eqn:H401; simpl; [|auto].
           apply Z.eqb_eq in H401. subst st.
           split; [reflexivity|]. split; [reflexivity|]. right.
           do 2 eexists. split; [reflexivity|]. simpl. by repeat split.
      * unfold Api.on_error. simpl. auto.
Qed.

(** X3: a call of the api client leaves [localStorage] and the location as
    they were, unless it ends rejected with a 401 response, in which case
    the token is removed and the location is the login page; it never
    touches the default headers or the toasts, and never the query cache. *)
Theorem api_touches_the_browser_only_on_401 cfg w :
  let w' := fst (Api.api cfg w) in
  common_headers w' = common_headers w /\ toasts w' = toasts w /\
  queries w' = queries w /\
  ((localStorage w' = localStorage w /\ location w' = location w) \/
   (exists e r, snd (Api.api cfg w) = Rejected (AxiosError e) /\
                response e = Some r /\ status r = 401 /\
                localStorage w' = delete "token" (localStorage w) /\
                location w' = "/login")).
Proof.
  cbv zeta. unfold Api.api.
  destruct (dispatch_browser (network w) w cfg) as (Hc & Ht & Hb).
  split; [exact Hc|]. split; [exact Ht|]. split; [apply dispatch_queries|exact Hb].
Qed.

Lemma api_browser_cases cfg w :
  (localStorage (fst (Api.api cfg w)) = localStorage w /\
   location (fst (Api.api cfg w)) = location w) \/
  (exists e r, snd (Api.api cfg w) = Rejected (AxiosError e) /\
               response e = Some r /\ status r = 401 /\
               localStorage (fst (Api.api cfg w)) = delete "token" (localStorage w) /\
               location (fst (Api.api cfg w)) = "/login").
Proof. unfold Api.api. by destruct (dispatch_browser (network w) w cfg) as (_ & _ & H). Qed.

(** ** The auth services *)

(** X4: [verifyToken] asks POST /auth/verify-token.  When it reports the
    token valid, [localStorage] and the location are as they were; when it
    reports it invalid, neither a token nor a user is left in
    [localStorage], and the other keys are as they were. *)
Theorem verifyToken_outcomes w :
  let w' := fst (Api.authService.verifyToken w) in
  Forall (fun r => method r = POST /\ url r = "/auth/verify-token") (issued w w') /\
  match snd (Api.authService.verifyToken w) with
  | Some (Api.authService.Valid user) =>
      localStorage w' = localStorage w /\ location w' = location w
  | Some (Api.authService.Invalid _) =>
      localStorage w' !! "token" = None /\ localStorage w' !! "user" = None /\
      forall k, k <> "token" -> k <> "user" -> localStorage w' !! k = localStorage w !! k
  | None => localStorage w' = localStorage w /\ location w' = location w
  end.
Proof.
  cbv zeta. unfold Api.authService.verifyToken, Api.post.
  set (cfg := Api.mkRequest POST "/auth/verify-token" NoBody ∅).
  destruct (api_sent cfg w) as (new & _ & E & _ & F).
  destruct (api_browser_cases cfg w) as [[Hl Hloc]|(e & r & Hp & _ & _ & Hl & _)];
    destruct (Api.api cfg w) as [w1 [resp|thrown|]]; simpl in *; try discriminate.
  all: split;
    [ unfold issued; simpl; rewrite E, drop_app_length;
      eapply Forall_impl; [exact F|]; by intros r0 (-> & -> & _) |].
  - by split.
  - rewrite Hl. split; [by rewrite lookup_delete_ne, lookup_delete_eq|].
    split; [by rewrite lookup_delete_eq|].
    intros k H1 H2. by rewrite !lookup_delete_ne.
  - by split.
  - rewrite Hl. split; [by rewrite lookup_delete_ne, lookup_delete_eq|].
    split; [by rewrite lookup_delete_eq|].
    intros k H1 H2. by rewrite !lookup_delete_ne.
Qed.

(** X5: when [authService.login] is fulfilled and the body has no truthy
    [access_token], nothing is written to [localStorage]; when the token is
    a non-empty string, it is stored under 'token' next to the stringified
    user, and every request that the api client sends from then on carries
    it as the bearer token. *)
Theorem authService_login_stores_what_later_requests_carry
    stringify username password w w' resp :
  Api.authService.login stringify username password w = (w', Fulfilled resp) ->
  (JS.truthy (JS.get (data resp) "access_token") = false ->
   localStorage w' = localStorage w) /\
  (forall tok, JS.get (data resp) "access_token" = JS.Str tok -> tok <> "" ->
     localStorage w' !! "token" = Some tok /\
     localStorage w' !! "user" =
       Some (stringify (JS.Obj [("id", JS.get (data resp) "user_id");
                                ("username", JS.get (data resp) "username");
                                ("role", JS.get (data resp) "role");
                                ("full_name", JS.get (data resp) "full_name")])) /\
     forall cfg r, In r (issued w' (fst (Api.api cfg w'))) ->
       headers r !! "Authorization" = Some ("Bearer " ++ tok)%string).
Proof.
  unfold Api.authService.login, Api.post.
  set (cfg0 := Api.mkRequest POST "/auth/token" _ _).
  destruct (api_browser_cases cfg0 w) as [[Hl _]|(e & r & Hp & _)];
    destruct (Api.api cfg0 w) as [w1 [resp1|thrown|]]; simpl in *; try discriminate.
  destruct (JS.nullish (data resp1)); [discriminate|].
  destruct (JS.truthy (JS.get (data resp1) "access_token")) eqn:Ht.
  - intros [= <- <-]. split; [intros H; congruence|].
    intros tok Htok Hne. rewrite Htok. simpl.
    split; [by rewrite lookup_insert_ne, lookup_insert_eq|].
    split; [by rewrite lookup_insert_eq|].
    intros cfg r0 Hin. unfold Api.api in Hin.
    match type of Hin with
    | In _ (issued ?w2 _) =>
        destruct (dispatch_sent_exact (network w2) w2 cfg) as (new & E & F)
    end.
    rewrite (issued_app _ _ _ E) in Hin.
    rewrite Forall_forall in F. apply list_elem_of_In, F in Hin. subst r0.
    unfold Api.request_interceptor, getItem_truthy. simpl.
    rewrite lookup_insert_ne, lookup_insert_eq by done.
    apply String.eqb_neq in Hne. rewrite Hne. simpl. apply lookup_insert_eq.
  - intros [= <- <-]. split; [by intros _|].
    intros tok Htok Hne. rewrite Htok in Ht. simpl in Ht.
    apply String.eqb_neq in Hne. by rewrite Hne in Ht.
Qed.

Lemma authService_login_stores_what_later_requests_carry_witness :
  exists w' resp,
    Api.authService.login (fun _ => "{}") "doctor1" "password123" welcoming_world
      = (w', Fulfilled resp) /\
    localStorage w' !! "token" = Some "abc" /\
    forall cfg r, In r (issued w' (fst (Api.api cfg w'))) ->
      headers r !! "Authorization" = Some "Bearer abc".
Proof.
  do 2 eexists. split; [reflexivity|].
  match goal with
  | |- localStorage ?w' !! _ = _ /\ _ =>
      destruct (authService_login_stores_what_later_requests_carry
                  (fun _ => "{}") "doctor1" "password123" welcoming_world w' _ eq_refl)
        as [_ H]
  end.
  destruct (H "abc" eq_refl) as (Ht & _ & Hr); [discriminate|].
  split; [exact Ht|exact Hr].
Defined.

(** ** The auth context *)

Lemma getItem_truthy_Some k w tok :
  getItem_truthy k w = Some tok -> localStorage w !! k = Some tok /\ tok <> "".
Proof.
  unfold getItem_truthy. destruct (localStorage w !! k) as [v|]; [|discriminate].
  destruct (String.eqb_spec v ""); [discriminate|]. by intros [= <-].
Qed.

Lemma axios_browser cfg w :
  localStorage (fst (axios cfg w)) = localStorage w /\
  common_headers (fst (axios cfg w)) = common_headers w /\
  location (fst (axios cfg w)) = location w.
Proof.
  unfold axios. destruct (network w) as [|t rest]; [done|].
  by destruct (settle cfg t).
Qed.

Lemma mount_session w :
  session_ok (fst (AuthContext.checkAuthStatus AuthContext.initial w))
             (snd (AuthContext.checkAuthStatus AuthContext.initial w)).
Proof.
  unfold AuthContext.checkAuthStatus.
  destruct (getItem_truthy "token" w) as [token|] eqn:Htok; [|by intros [=]].
  apply getItem_truthy_Some in Htok as [Htok _].
  set (w1 := set_common_headers _ w).
  destruct (axios_browser (AuthContext.me_request w1) w1) as (Hl & Hh & _).
  destruct (axios (AuthContext.me_request w1) w1) as [w2 [resp|thrown|]]; simpl in *;
    try (by intros [=]).
  intros _. exists token. rewrite Hl, Hh. split; [exact Htok|]. apply lookup_insert_eq.
Qed.

Lemma auth_step_keeps_session e s w :
  session_ok s w ->
  session_ok (fst (AuthContext.step e (s, w))) (snd (AuthContext.step e (s, w))).
Proof.
  intros Hok. destruct e as [u p|]; simpl.
  - unfold AuthContext.login.
    set (cfg := {| method := _ |}).
    destruct (axios_browser cfg w) as (Hl & Hh & _).
    destruct (axios cfg w) as [w1 [resp|thrown|]]; simpl in *.
    + destruct (JS.nullish (data resp)); simpl.
      * intros Ha. destruct (Hok Ha) as (tok & ? & ?). exists tok. by rewrite Hl, Hh.
      * intros _. eexists. split; [apply lookup_insert_eq|apply lookup_insert_eq].
    + intros Ha. destruct (Hok Ha) as (tok & ? & ?). exists tok. by rewrite Hl, Hh.
    + intros Ha. destruct (Hok Ha) as (tok & ? & ?). exists tok. by rewrite Hl, Hh.
  - by intros [=].
Qed.

Lemma auth_fold_keeps_session es : forall sw,
  session_ok (fst sw) (snd sw) ->
  session_ok (fst (fold_left (fun acc e => AuthContext.step e acc) es sw))
             (snd (fold_left (fun acc e => AuthContext.step e acc) es sw)).
Proof.
  induction es as [|e es IH]; intros [s w] H; [exact H|].
  simpl fold_left. apply IH. by apply auth_step_keeps_session.
Qed.

(** X6: from the mount of the provider on, through any sequence of calls of
    [login] and [logout] (each running to its end before the next), while
    [isAuthenticated] is true a token is stored in [localStorage] and the
    default [Authorization] header of axios is [Bearer] followed by that
    token. *)
Theorem authenticated_session_holds_its_token es w :
  AuthContext.isAuthenticated (fst (AuthContext.run es w)) = true ->
  exists tok, localStorage (snd (AuthContext.run es w)) !! "token" = Some tok /\
              common_headers (snd (AuthContext.run es w)) !! "Authorization"
                = Some ("Bearer " ++ tok)%string.
Proof.
  exact (auth_fold_keeps_session es
           (AuthContext.checkAuthStatus AuthContext.initial w) (mount_session w)).
Qed.

Lemma authenticated_session_holds_its_token_witness :
  exists tok,
    localStorage (snd (AuthContext.run [AuthContext.LoginCalled "doctor1" "password123"]
                         welcoming_world)) !! "token" = Some tok /\
    common_headers (snd (AuthContext.run [AuthContext.LoginCalled "doctor1" "password123"]
                           welcoming_world)) !! "Authorization"
      = Some ("Bearer " ++ tok)%string.
Proof.
  apply (authenticated_session_holds_its_token
           [AuthContext.LoginCalled "doctor1" "password123"] welcoming_world).
  reflexivity.
Defined.

(** X7: what the mount effect does to the initial context.  Without a
    (non-empty) stored token it sends nothing and only ends the loading.
    With one it asks GET /api/auth/me with that token as the bearer token;
    if that request fails the token and the default header are removed and
    nobody is signed in; if it succeeds the user is the body of the answer,
    the context is authenticated and the token stays. *)
Theorem checkAuthStatus_outcomes w :
  let '(s, w') := AuthContext.checkAuthStatus AuthContext.initial w in
  match getItem_truthy "token" w with
  | None => w' = w /\ s = AuthContext.setIsLoading false AuthContext.initial
  | Some token =>
      (exists r, issued w w' = [r] /\ method r = GET /\ url r = "/api/auth/me" /\
                 headers r !! "Authorization" = Some ("Bearer " ++ token)%string) /\
      match network w with
      | [] => s = AuthContext.initial
      | t :: rest =>
          AuthContext.isLoading s = false /\
          if failed t then
            AuthContext.isAuthenticated s = false /\ AuthContext.user s = JS.Null /\
            localStorage w' !! "token" = None /\
            common_headers w' !! "Authorization" = None
          else
            AuthContext.isAuthenticated s = true /\
            (exists st body, t = Answer st body /\ AuthContext.user s = body) /\
            localStorage w' !! "token" = Some token
      end
  end.
Proof.
  unfold AuthContext.checkAuthStatus.
  destruct (getItem_truthy "token" w) as [token|] eqn:Htok; [|by split].
  apply getItem_truthy_Some in Htok as [Htok _].
  set (w1 := set_common_headers _ w). unfold axios.
  change (network w1) with (network w).
  destruct (network w) as [|t rest] eqn:Hnet.
  - split; [|reflexivity]. eexists. split; [by apply issued_app|].
    simpl. split; [reflexivity|]. split; [reflexivity|]. apply lookup_insert_eq.
  - destruct t as [st body|]; simpl.
    + destruct (validateStatus st); simpl.
      * split.
        { eexists. split; [by apply issued_app|]. simpl.
          split; [reflexivity|]. split; [reflexivity|]. apply lookup_insert_eq. }
        split; [reflexivity|]. split; [reflexivity|]. split; [eauto|exact Htok].
      * split.
        { eexists. split; [by apply issued_app|]. simpl.
          split; [reflexivity|]. split; [reflexivity|]. apply lookup_insert_eq. }
        split; [reflexivity|]. split; [reflexivity|]. split; [reflexivity|].
        split; apply lookup_delete_eq.
    + split.
      { eexists. split; [by apply issued_app|]. simpl.
        split; [reflexivity|]. split; [reflexivity|]. apply lookup_insert_eq. }
      split; [reflexivity|]. split; [reflexivity|]. split; [reflexivity|].
      split; apply lookup_delete_eq.
Qed.

(** ** The login page *)




(** ** The routes and the navigation *)

(** X9: for a signed-in user (an object) of a loaded session, every link
    that the layout puts in the navigation leads to a route that renders
    its page for that user; and the link to /users is in the navigation
    exactly when the /users route lets the user through. *)
Theorem navigation_agrees_with_the_route_guard auth props :
  AuthContext.isAuthenticated auth = true ->
  AuthContext.isLoading auth = false ->
  AuthContext.user auth = JS.Obj props ->
  (forall item, In item (MainLayout.navigation (AuthContext.user auth)) ->
                App.render_route (MainLayout.href item) auth = Some App.Children) /\
  (In "/users" (map MainLayout.href (MainLayout.navigation (AuthContext.user auth))) <->
   App.render_route "/users" auth = Some App.Children).
Proof.
  intros Ha Hl Hu.
  assert (Hplain : forall p, In p ["/dashboard"; "/upload"; "/history"; "/reports"; "/profile"] ->
            App.render_route p auth = Some App.Children).
  { intros p Hp. simpl in Hp.
    destruct Hp as [<-|[<-|[<-|[<-|[<-|[]]]]]];
      unfold App.render_route; simpl; unfold App.ProtectedRoute; by rewrite Hl, Ha. }
  assert (Husers : App.render_route "/users" auth =
            Some (if JS.strict_eq_str (JS.get (AuthContext.user auth) "role") "admin"
                  then App.Children else App.Navigate "/dashboard")).
  { unfold App.render_route. simpl. unfold App.ProtectedRoute.
    rewrite Hl, Ha, Hu. simpl. by destruct (JS.strict_eq_str _ _). }
  rewrite Hu in *. unfold MainLayout.navigation. cbn [JS.truthy andb].
  destruct (JS.strict_eq_str (JS.get (JS.Obj props) "role") "admin") eqn:Hr.
  - split.
    + intros item Hin. cbn in Hin.
      destruct Hin as [<-|[<-|[<-|[<-|[<-|[<-|[]]]]]]];
        try exact Husers; apply Hplain; cbn; tauto.
    + split; [intros _; exact Husers|]. intros _. cbn. tauto.
  - split.
    + intros item Hin. cbn in Hin.
      destruct Hin as [<-|[<-|[<-|[<-|[<-|[]]]]]]; apply Hplain; cbn; tauto.
    + rewrite Husers. split; [|discriminate]. cbn.
      intros [H|[H|[H|[H|[H|[]]]]]]; discriminate.
Qed.

Lemma navigation_agrees_with_the_route_guard_witness :
  (forall item, In item (MainLayout.navigation (AuthContext.user admin_session)) ->
                App.render_route (MainLayout.href item) admin_session = Some App.Children) /\
  (In "/users" (map MainLayout.href
                  (MainLayout.navigation (AuthContext.user admin_session))) <->
   App.render_route "/users" admin_session = Some App.Children).
Proof.
  apply (navigation_agrees_with_the_route_guard admin_session
           [("id", JS.Num (JS.Int 1)); ("username", JS.Str "admin1");
            ("role", JS.Str "admin")]); reflexivity.
Defined.



(** ** The upload page, further *)

(** X11: [handleUpload] asks for a prediction only when the upload of the
    selected file was fulfilled with a body, and the prediction request then
    names the [id] of that body as its [image_id]. *)
Theorem prediction_is_requested_for_the_uploaded_image s w f r :
  Upload.file s = Some f ->
  In r (issued w (snd (Upload.handleUpload s w))) ->
  url r = "/predictions/" ->
  exists w2 imageResponse,
    Api.imageService.uploadImage (FileBody f) (toast (ToastLoading "Uploading image...") w)
      = (w2, Fulfilled imageResponse) /\
    JS.nullish (data imageResponse) = false /\
    req_data r =
      JsonBody (JS.Obj [("image_id", JS.get (data imageResponse) "id");
                        ("model_name",
                         JS.Str (Upload.getModelNameForImageType (Upload.imageType s)))]).
Proof.
  intros Hf Hin Hurl. unfold Upload.handleUpload in Hin. rewrite Hf in Hin.
  unfold Api.imageService.uploadImage, Api.post in *. fold (upload_cfg f) in *.
  set (w1 := toast (ToastLoading "Uploading image...") w) in *.
  destruct (api_sent (upload_cfg f) w1) as (ups & _ & E & _ & F).
  assert (Hups : forall w', sent w' = sent w ++ ups -> In r (issued w w') -> False).
  { intros w' E' Hin'. rewrite (issued_app _ _ _ E') in Hin'.
    rewrite Forall_forall in F. apply list_elem_of_In, F in Hin' as (_ & Hu & _).
    rewrite Hurl in Hu. discriminate. }
  destruct (Api.api (upload_cfg f) w1) as [w2 [imageResponse|thrown|]]; simpl in E.
  - destruct (JS.nullish (data imageResponse)) eqn:Hn.
    + exfalso. apply (Hups _ (eq_trans (upload_failed_sent _ _ _) E) Hin).
    + exists w2, imageResponse. split; [reflexivity|]. split; [exact Hn|].
      unfold Api.predictionService.createPrediction, Api.post in Hin.
      simpl Upload.imageType in Hin.
      set (imageId := JS.get (data imageResponse) "id") in *.
      fold (prediction_cfg imageId (Upload.imageType s)) in Hin.
      set (w3 := toast _ (toast _ (toast _ w2))) in *.
      destruct (api_sent (prediction_cfg imageId (Upload.imageType s)) w3)
        as (preds & _ & E' & _ & F').
      assert (E3 : sent w3 = sent w ++ ups) by exact E.
      rewrite E3, <- app_assoc in E'.
      assert (Hboth : forall w', sent w' = sent w ++ ups ++ preds ->
                In r (issued w w') -> req_data r = req_data (prediction_cfg imageId (Upload.imageType s))).
      { intros w' E'' Hin'. rewrite (issued_app _ _ _ E'') in Hin'.
        apply in_app_or in Hin' as [Hin'|Hin'].
        - rewrite Forall_forall in F. apply list_elem_of_In, F in Hin' as (_ & Hu & _).
          rewrite Hurl in Hu. discriminate.
        - rewrite Forall_forall in F'. by apply list_elem_of_In, F' in Hin' as (_ & _ & _ & Hd). }
      destruct (Api.api (prediction_cfg imageId (Upload.imageType s)) w3)
        as [w4 [predictionResponse|thrown|]]; simpl in E'.
      * destruct (JS.nullish (data predictionResponse)).
        -- apply (Hboth _ (eq_trans (upload_failed_sent _ _ _)
                             (E' : sent (toast _ (toast _ w4)) = _)) Hin).
        -- apply (Hboth _ (E' : sent (set_location _ (toast _ (toast _ w4))) = _) Hin).
      * apply (Hboth _ (eq_trans (upload_failed_sent _ _ _) E') Hin).
      * apply (Hboth _ E' Hin).
  - exfalso. apply (Hups _ (eq_trans (upload_failed_sent _ _ _) E) Hin).
  - exfalso. apply (Hups _ E Hin).
Qed.

Lemma prediction_is_requested_for_the_uploaded_image_witness :
  exists w2 imageResponse,
    Api.imageService.uploadImage (FileBody brain_scan)
      (toast (ToastLoading "Uploading image...") obliging_world)
      = (w2, Fulfilled imageResponse) /\
    JS.nullish (data imageResponse) = false /\
    req_data (Api.request_interceptor obliging_world
                (prediction_cfg (JS.Num (JS.Int 12)) "brain-mri")) =
      JsonBody (JS.Obj [("image_id", JS.get (data imageResponse) "id");
                        ("model_name",
                         JS.Str (Upload.getModelNameForImageType
                                   (Upload.imageType ready_to_upload)))]).
Proof.
  apply (prediction_is_requested_for_the_uploaded_image ready_to_upload obliging_world
           brain_scan).
  - reflexivity.
  - right. left. reflexivity.
  - reflexivity.
Defined.






(** ** Ids, from the URL and back *)

Lemma digit_val_pretty_char d :
  (d < 10)%N -> JS.digit_val 10 (pretty_N_char d) = Some (Z.of_N d).
Proof.
  intros H.
  assert (d = 0 \/ d = 1 \/ d = 2 \/ d = 3 \/ d = 4 \/ d = 5 \/ d = 6 \/ d = 7 \/
          d = 8 \/ d = 9)%N as Hd by lia.
  repeat (destruct Hd as [->|Hd]; [reflexivity|]). by subst.
Qed.

Lemma digits_pretty_N_go x : forall s,
  JS.digits 10 (pretty_N_go x s) None =
  JS.digits 10 s (if decide (x = 0)%N then None else Some (Z.of_N x)).
Proof.
  induction (N.lt_wf_0 x) as [x _ IH]; intros s.
  destruct (decide (x = 0)%N) as [->|Hx]; [reflexivity|].
  rewrite pretty_N_go_step by lia.
  rewrite IH by (apply N.div_lt; lia).
  simpl JS.digits. rewrite digit_val_pretty_char by (apply N.mod_lt; lia).
  f_equal. f_equal.
  assert (Hdm : x = (10 * (x `div` 10) + x `mod` 10)%N) by (apply N.div_mod; lia).
  set (q := (x `div` 10)%N) in *. set (m := (x `mod` 10)%N) in *.
  clearbody q m. clear IH.
  destruct (decide (q = 0)%N) as [->|Hq]; simpl; lia.
Qed.

Lemma pretty_N_go_head x : forall s,
  (0 < x)%N -> exists c rest, pretty_N_go x s = String c rest /\ leading_digit c.
Proof.
  induction (N.lt_wf_0 x) as [x _ IH]; intros s Hx.
  rewrite pretty_N_go_step by done.
  destruct (decide (x `div` 10 = 0)%N) as [Hq|Hq].
  - rewrite Hq, pretty_N_go_0. eexists _, s. split; [reflexivity|].
    assert (x < 10)%N by (apply N.div_small_iff in Hq; lia).
    rewrite N.mod_small by done. unfold leading_digit.
    assert (x = 1 \/ x = 2 \/ x = 3 \/ x = 4 \/ x = 5 \/ x = 6 \/ x = 7 \/
            x = 8 \/ x = 9)%N as Hd by lia.
    repeat (destruct Hd as [->|Hd]; [simpl; tauto|]). subst. simpl. tauto.
  - apply IH; [apply N.div_lt; lia|by apply N.neq_0_lt_0].
Qed.

Lemma parseInt_unsigned c rest :
  leading_digit c ->
  JS.parseInt (String c rest) =
    match JS.digits 10 (String c rest) None with
    | None => JS.NaN
    | Some z => JS.Int (1 * z)
    end.
Proof.
  unfold leading_digit. simpl.
  intros [<-|[<-|[<-|[<-|[<-|[<-|[<-|[<-|[<-|[]]]]]]]]]]; reflexivity.
Qed.

Lemma parseInt_negative c rest :
  leading_digit c ->
  JS.parseInt (String "-" (String c rest)) =
    match JS.digits 10 (String c rest) None with
    | None => JS.NaN
    | Some z => JS.Int (-1 * z)
    end.
Proof.
  unfold leading_digit. simpl.
  intros [<-|[<-|[<-|[<-|[<-|[<-|[<-|[<-|[<-|[]]]]]]]]]]; reflexivity.
Qed.

Lemma parseInt_pretty z : JS.parseInt (pretty z) = JS.Int z.
Proof.
  destruct z as [|p|p]; [reflexivity| |].
  - change (pretty (Z.pos p)) with (pretty_N_go (N.pos p) "").
    destruct (pretty_N_go_head (N.pos p) "" ltac:(lia)) as (c & rest & E & Hc).
    rewrite E, (parseInt_unsigned _ _ Hc), <- E, digits_pretty_N_go. simpl.
    f_equal.
  - change (pretty (Z.neg p)) with ("-" +:+ pretty_N_go (N.pos p) "").
    destruct (pretty_N_go_head (N.pos p) "" ltac:(lia)) as (c & rest & E & Hc).
    rewrite E. change ("-" +:+ String c rest) with (String "-" (String c rest)).
    rewrite (parseInt_negative _ _ Hc), <- E, digits_pretty_N_go. simpl.
    f_equal.
Qed.

(** X13: an integer id (a safe integer, which is what a number can hold
    exactly) survives the URL: the text that the upload page interpolates
    into /predictions/<id> parses back to the same integer, so the
    prediction-detail page that opens on it starts both of its forms with
    that integer as the [diagnosis_id]. *)
Theorem prediction_id_survives_the_url z :
  - 2 ^ 53 < z < 2 ^ 53 ->
  let id := JS.to_string (JS.Num (JS.Int z)) in
  JS.parseInt id = JS.Int z /\
  JS.get (JS.Obj (PredictionDetail.feedbackData (PredictionDetail.initial id)))
         "diagnosis_id" = JS.Num (JS.Int z) /\
  JS.get (JS.Obj (PredictionDetail.reportData (PredictionDetail.initial id)))
         "diagnosis_id" = JS.Num (JS.Int z).
Proof.
  intros _. cbv zeta. change (JS.to_string (JS.Num (JS.Int z))) with (pretty z).
  simpl. by rewrite parseInt_pretty.
Qed.

Lemma prediction_id_survives_the_url_witness :
  let id := JS.to_string (JS.Num (JS.Int 31)) in
  JS.parseInt id = JS.Int 31 /\
  JS.get (JS.Obj (PredictionDetail.feedbackData (PredictionDetail.initial id)))
         "diagnosis_id" = JS.Num (JS.Int 31) /\
  JS.get (JS.Obj (PredictionDetail.reportData (PredictionDetail.initial id)))
         "diagnosis_id" = JS.Num (JS.Int 31).
Proof.
  apply (prediction_id_survives_the_url 31). lia.
Defined.

(** ** The prediction-detail page, both forms *)








(** ** The list pages *)

Lemma history_step_bounds e page :
  1 <= page ->
  1 <= History.step page e /\
  History.step page e <= page + full_pages [e].
Proof.
  intros H. destruct e as [|d]; simpl.
  - unfold History.handlePreviousPage, full_pages. simpl. lia.
  - unfold History.handleNextPage, full_pages. simpl.
    destruct (JS.truthy d && JS.strict_eq_num (JS.length_of d) History.limit); simpl; lia.
Qed.

Lemma full_pages_cons e es : full_pages (e :: es) = full_pages [e] + full_pages es.
Proof.
  unfold full_pages. simpl.
  destruct (match e with History.Previous => _ | History.Next _ => _ end); simpl; lia.
Qed.

Lemma history_run_bounds es : forall page,
  1 <= page -> 1 <= History.run es page <= page + full_pages es.
Proof.
  induction es as [|e es IH]; intros page H.
  - unfold History.run, full_pages. simpl. lia.
  - change (History.run (e :: es) page) with (History.run es (History.step page e)).
    destruct (history_step_bounds e page H) as [H1 H2].
    specialize (IH _ H1). rewrite full_pages_cons. lia.
Qed.

(** X15: on the history page the page number starts at 1 and, whatever
    buttons are pressed, never goes below 1 (the previous button stops
    there) and never beyond 1 plus the number of presses of the next button
    that found a page of exactly ten entries. *)
Theorem history_page_number_bounds es :
  1 <= History.run es 1 <= 1 + full_pages es.
Proof. apply history_run_bounds. lia. Qed.

Lemma useQuery_sent key cfg enabled w :
  exists new,
    sent (fst (ReactQuery.useQuery key
                 (fun w0 => ReactQuery.then_data (Api.api cfg w0)) enabled w))
      = sent w ++ new /\
    Forall (same_call cfg) new.
Proof.
  unfold ReactQuery.useQuery.
  destruct (enabled && negb (ReactQuery.is_fresh key w));
    [|exists []; by rewrite app_nil_r].
  destruct (api_sent cfg w) as (new & _ & E & _ & F).
  exists new. split; [|exact F].
  unfold ReactQuery.then_data. by destruct (Api.api cfg w) as [w1 [resp|e|]].
Qed.

(** X16: the history page and the reports page hand their services an
    object ({ skip, limit }) where the services take a number, so whatever
    the page number is, the request that either page sends is a GET with the
    query [limit=NaN]: neither the page number nor the page size reaches
    the server. *)
Theorem list_pages_ask_without_pagination page w r :
  (In r (issued w (fst (History.diagnoses page w))) ->
   method r = GET /\ url r = "/predictions/?limit=NaN") /\
  (In r (issued w (fst (Reports.reports page w))) ->
   method r = GET /\ url r = "/reports/?limit=NaN").
Proof.
  split; intros Hin.
  - destruct (useQuery_sent ["diagnoses"; pretty page; pretty History.limit]
                (Api.mkRequest GET "/predictions/?limit=NaN" NoBody ∅) true w)
      as (new & E & F).
    change (sent (fst (History.diagnoses page w)) = sent w ++ new) in E.
    rewrite (issued_app _ _ _ E) in Hin.
    rewrite Forall_forall in F. apply list_elem_of_In, F in Hin as (Hm & Hu & _).
    by rewrite Hm, Hu.
  - destruct (useQuery_sent ["reports"; pretty page; pretty Reports.limit]
                (Api.mkRequest GET "/reports/?limit=NaN" NoBody ∅) true w)
      as (new & E & F).
    change (sent (fst (Reports.reports page w)) = sent w ++ new) in E.
    rewrite (issued_app _ _ _ E) in Hin.
    rewrite Forall_forall in F. apply list_elem_of_In, F in Hin as (Hm & Hu & _).
    by rewrite Hm, Hu.
Qed.

Lemma list_pages_ask_without_pagination_witness :
  let r := Api.request_interceptor trusted_world
             (Api.mkRequest GET "/predictions/?limit=NaN" NoBody ∅) in
  method r = GET /\ url r = "/predictions/?limit=NaN".
Proof.
  apply (list_pages_ask_without_pagination 3 trusted_world). left. reflexivity.
Defined.

(** ** The profile page *)



(** ** The edit modal of the user-management page *)




(** ** The predictions tab, further *)

Lemma insert_sorted_at c x l :
  entries_at c (PredictionDetail.insert_sorted PredictionDetail.compareFn x l)
    = entries_at c (x :: l).
Proof.
  induction l as [|y l IH]; [reflexivity|]. simpl PredictionDetail.insert_sorted.
  destruct (Qle_bool (PredictionDetail.compareFn x y) 0) eqn:E; [reflexivity|].
  unfold entries_at in *. simpl in *. rewrite IH.
  destruct (Qeq_bool (snd y) c) eqn:Hy; [|reflexivity].
  destruct (Qeq_bool (snd x) c) eqn:Hx; [|reflexivity].
  exfalso. apply Qeq_bool_iff in Hy, Hx.
  assert (Qle_bool (PredictionDetail.compareFn x y) 0 = true); [|congruence].
  apply Qle_bool_iff. unfold PredictionDetail.compareFn. lra.
Qed.

Lemma sort_at c l :
  entries_at c (PredictionDetail.sort PredictionDetail.compareFn l) = entries_at c l.
Proof.
  induction l as [|x l IH]; [reflexivity|]. simpl PredictionDetail.sort.
  rewrite insert_sorted_at. unfold entries_at in *. simpl. by rewrite IH.
Qed.

Lemma rows_at_map c l : rows_at c (map to_row l) = map to_row (entries_at c l).
Proof.
  induction l as [|e l IH]; [reflexivity|]. unfold rows_at, entries_at in *. simpl.
  destruct (Qeq_bool (snd e) c); simpl; by rewrite IH.
Qed.

(** X19: the sort of the predictions tab is stable: the labels that share a
    confidence are shown in the order in which the mapping lists them. *)
Theorem sortedPredictions_keeps_ties_in_order c entries :
  rows_at c (PredictionDetail.sortedPredictions
               (Some {| PredictionDetail.prediction_data := Some entries |}))
  = map to_row (entries_at c entries).
Proof.
  simpl. change (fun e : string * Q => _) with to_row.
  by rewrite rows_at_map, sort_at.
Qed.

Lemma row_ge_trans : Transitive row_ge.
Proof. intros a b c Hab Hbc. unfold row_ge in *. lra. Qed.

(** X20: the first row of the predictions tab is a most confident one: no
    entry of the mapping has a greater confidence; and the tab is empty only
    for an empty (or absent) mapping. *)
Theorem first_row_is_most_confident p first rest :
  PredictionDetail.sortedPredictions (Some p) = first :: rest ->
  exists entries,
    PredictionDetail.prediction_data p = Some entries /\
    In (PredictionDetail.label first, PredictionDetail.confidence first) entries /\
    forall e, In e entries -> (snd e <= PredictionDetail.confidence first)%Q.
Proof.
  destruct p as [[entries|]]; simpl; [|discriminate].
  change (fun e : string * Q => _) with to_row. intros E.
  exists entries. split; [reflexivity|].
  pose proof (sorted_rows _ (sort_sorted entries)) as Hs. rewrite E in Hs.
  pose proof (Permutation_map to_row (sort_perm PredictionDetail.compareFn entries)) as Hp.
  rewrite E in Hp.
  assert (Hin : forall e, In e entries -> In (to_row e) (first :: rest)).
  { intros e He. eapply Permutation_in; [exact Hp|]. by apply in_map. }
  split.
  - assert (In first (map to_row entries)) as Hf.
    { eapply Permutation_in; [symmetry; exact Hp|]. by left. }
    apply in_map_iff in Hf as ([l c] & <- & He). exact He.
  - intros e He. destruct (Hin e He) as [Hfe|Hr]; [rewrite Hfe; simpl; lra|].
    pose proof (Sorted_extends row_ge_trans Hs) as Hall.
    rewrite List.Forall_forall in Hall. exact (Hall _ Hr).
Qed.

Lemma first_row_is_most_confident_witness :
  exists entries,
    Some [("Pneumonia", 0.12%Q); ("COVID-19", 0.8%Q); ("Normal", 0.08%Q)] = Some entries /\
    In ("COVID-19", 0.8%Q) entries /\
    forall e, In e entries -> (snd e <= 0.8)%Q.
Proof.
  apply (first_row_is_most_confident
           {| PredictionDetail.prediction_data :=
                Some [("Pneumonia", 0.12%Q); ("COVID-19", 0.8%Q); ("Normal", 0.08%Q)] |}
           {| PredictionDetail.label := "COVID-19"; PredictionDetail.confidence := 0.8%Q |}
           [ {| PredictionDetail.label := "Pneumonia"; PredictionDetail.confidence := 0.12%Q |};
             {| PredictionDetail.label := "Normal"; PredictionDetail.confidence := 0.08%Q |} ]).
  reflexivity.
Defined.

(** ** Failures *)

Lemma api_toasts cfg w : toasts (fst (Api.api cfg w)) = toasts w.
Proof. unfold Api.api. by destruct (dispatch_browser (network w) w cfg) as (_ & H & _). Qed.

(** X21: when the request of a user mutation is rejected, the page state is
    as it was (an open modal stays open, the typed data stay), the query
    cache is untouched, and exactly one toast is added: an error with the
    [detail] of the response if that is truthy, and with the fallback
    message of the mutation otherwise. *)
Theorem user_mutation_failure_keeps_the_page m s w thrown :
  snd (mutation_call m w) = Rejected thrown ->
  fst (run_mutation m s w) = s /\
  queries (snd (run_mutation m s w)) = queries w /\
  toasts (snd (run_mutation m s w)) =
    toasts w ++ [ToastError (JS.or (optional_detail thrown)
                                   (JS.Str (mutation_fallback m)))].
Proof.
  destruct m as [userData|id d|id]; simpl;
    unfold UserManagement.addUserMutation, UserManagement.updateUserMutation,
      UserManagement.deleteUserMutation, ReactQuery.mutate,
      Api.userService.createUser, Api.userService.updateUser, Api.userService.deleteUser,
      Api.post, Api.put, Api.delete;
    match goal with
    | |- context [Api.api ?c w] =>
        pose proof (api_toasts c w) as Ht;
        pose proof (dispatch_queries (network w) w c) as Hq;
        fold (Api.api c w) in Hq;
        destruct (Api.api c w) as [w1 p]
    end; simpl in *; intros ->; simpl; by rewrite Ht, Hq.
Qed.

Lemma user_mutation_failure_keeps_the_page_witness :
  let m := AddUser UserManagement.blank_user in
  exists thrown,
    fst (run_mutation m UserManagement.initial refusing_world) = UserManagement.initial /\
    queries (snd (run_mutation m UserManagement.initial refusing_world))
      = queries refusing_world /\
    toasts (snd (run_mutation m UserManagement.initial refusing_world)) =
      toasts refusing_world ++
      [ToastError (JS.or (optional_detail thrown) (JS.Str (mutation_fallback m)))] /\
    optional_detail thrown = JS.Str "Username already registered".
Proof.
  cbv zeta. eexists. 
  pose proof (fun t => user_mutation_failure_keeps_the_page
                (AddUser UserManagement.blank_user) UserManagement.initial
                refusing_world t) as H.
  specialize (H _ eq_refl). destruct H as (H1 & H2 & H3).
  split; [exact H1|]. split; [exact H2|]. split; [exact H3|reflexivity].
Defined.



(** ** The login form *)

Lemma field_set_field_eq k v fields : JS.field k (JS.set_field k v fields) = Some v.
Proof.
  induction fields as [|[k0 v0] rest IH]; simpl; [by rewrite String.eqb_refl|].
  destruct (String.eqb_spec k k0) as [->|N]; simpl.
  - by rewrite String.eqb_refl.
  - destruct (String.eqb_spec k k0); [done|exact IH].
Qed.

Lemma field_set_field_ne k k' v fields :
  k <> k' -> JS.field k (JS.set_field k' v fields) = JS.field k fields.
Proof.
  intros Hne. induction fields as [|[k0 v0] rest IH]; simpl.
  - destruct (String.eqb_spec k k'); [done|reflexivity].
  - destruct (String.eqb_spec k' k0) as [->|N]; simpl.
    + destruct (String.eqb_spec k k0); [done|reflexivity].
    + destruct (String.eqb_spec k k0); [reflexivity|exact IH].
Qed.

(** X23: the login form submits what was typed last: after changes of the
    username field to [u] and of the password field to [p], in either order
    and with any other state of the page, [handleSubmit] sends one POST to
    /api/auth/token whose form body is exactly that username and that
    password. *)
Theorem login_form_submits_what_was_typed s auth w u p s1 :
  s1 = Login.handleChange "password" p (Login.handleChange "username" u s) \/
  s1 = Login.handleChange "username" u (Login.handleChange "password" p s) ->
  exists r,
    issued w (snd (Login.handleSubmit s1 auth w)) = [r] /\
    method r = POST /\ url r = "/api/auth/token" /\
    req_data r = FormBody [("username", u); ("password", p)].
Proof.
  intros Hs1.
  assert (Hu : Login.field_text "username" s1 = u).
  { unfold Login.field_text. destruct Hs1 as [-> | ->]; simpl.
    - by rewrite field_set_field_ne, field_set_field_eq.
    - by rewrite field_set_field_eq. }
  assert (Hp : Login.field_text "password" s1 = p).
  { unfold Login.field_text. destruct Hs1 as [-> | ->]; simpl.
    - by rewrite field_set_field_eq.
    - by rewrite field_set_field_ne, field_set_field_eq. }
  unfold Login.handleSubmit, AuthContext.login. rewrite Hu, Hp.
  set (cfg := {| method := _ |}). exists cfg.
  split; [|by repeat split].
  apply issued_app. unfold axios.
  destruct (network w) as [|t rest]; [reflexivity|].
  destruct (settle cfg t) as [resp|e]; simpl.
  - by destruct (JS.nullish (data resp)).
  - reflexivity.
Qed.

Lemma login_form_submits_what_was_typed_witness :
  exists r,
    issued signed_out_world
      (snd (Login.handleSubmit
              (Login.handleChange "password" "wrong"
                 (Login.handleChange "username" "doctor1" Login.initial))
              AuthContext.initial signed_out_world)) = [r] /\
    method r = POST /\ url r = "/api/auth/token" /\
    req_data r = FormBody [("username", "doctor1"); ("password", "wrong")].
Proof.
  apply (login_form_submits_what_was_typed Login.initial AuthContext.initial
           signed_out_world "doctor1" "wrong").
  left. reflexivity.
Defined.

(** ** Two of the statements above, at a sample session *)

Lemma api_sends_once_per_redirect_plus_one_witness :
  let cfg := Api.mkRequest GET "/predictions/7" NoBody ∅ in
  length (issued redirecting_world (fst (Api.api cfg redirecting_world))) = 2%nat /\
  network (fst (Api.api cfg redirecting_world)) = [] /\
  (snd (Api.api cfg redirecting_world) = Pending <-> 1%nat = 2%nat).
Proof.
  exact (api_sends_once_per_redirect_plus_one
           (Api.mkRequest GET "/predictions/7" NoBody ∅) redirecting_world).
Defined.

